(** * CS-Grad-Tracking: entity store, referential-integrity guards and
      spreadsheet import, embedded from the controllers and the schema.

    Sources embedded here:
    - models/schema.js          (the Mongoose schemas: field order, types, enums)
    - controllers/CourseController.js (post, put, delete, upload)
    - controllers/JobController.js    (post, delete, upload, pushStudentJob)

    The database is an explicit [Store] threaded through every handler;
    a handler returns the list of responses it sent and the new store.
    Promise chains of one request are run to completion before the next
    request (or the next sheet row) starts. *)

From Stdlib Require Import ZArith Lia Bool.
From Stdlib Require Import Ascii String.
From Stdlib Require Import DecimalString.
From stdpp Require Import base option list gmap strings fin_maps.

Local Open Scope string_scope.
Local Open Scope Z_scope.

(** ** JavaScript strings (ASCII fragment) *)

Module JS.

(** Characters matched by [\s]; the ASCII members of the class. *)
Definition isSpace (c : ascii) : bool :=
  let n := nat_of_ascii c in
  ((n =? 32) || (n =? 9) || (n =? 10) || (n =? 11) || (n =? 12) || (n =? 13))%nat.

Definition isDigit (c : ascii) : bool :=
  let n := nat_of_ascii c in ((48 <=? n) && (n <=? 57))%nat.

Definition digitVal (c : ascii) : Z := Z.of_nat (nat_of_ascii c) - 48.

Definition upperChar (c : ascii) : ascii :=
  let n := nat_of_ascii c in
  if ((97 <=? n) && (n <=? 122))%nat then ascii_of_nat (n - 32) else c.

(** [String.prototype.toUpperCase], on ASCII letters. *)
Fixpoint toUpperCase (s : string) : string :=
  match s with
  | EmptyString => EmptyString
  | String c r => String (upperChar c) (toUpperCase r)
  end.

Fixpoint dropSpaces (s : string) : string :=
  match s with
  | String c r => if isSpace c then dropSpaces r else s
  | EmptyString => EmptyString
  end.

Fixpoint digitsVal (acc : Z) (s : string) : Z :=
  match s with
  | String c r => if isDigit c then digitsVal (10 * acc + digitVal c) r else acc
  | EmptyString => acc
  end.

(** [parseInt(s)] with the default radix, for decimal text: leading
    white space is skipped, an optional sign is read, then the longest
    run of decimal digits; [None] is [NaN] (no digit to read). *)
Definition parseDigits (s : string) : option Z :=
  match s with
  | String c _ => if isDigit c then Some (digitsVal 0 s) else None
  | EmptyString => None
  end.

Definition parseInt (s : string) : option Z :=
  match dropSpaces s with
  | String "-" r => Z.opp <$> parseDigits r
  | String "+" r => parseDigits r
  | r => parseDigits r
  end.

(** [Number.prototype.toString] on integers. *)
Definition showZ (z : Z) : string := NilZero.string_of_int (Z.to_int z).

(** [s.substring(0,1)] and [s.substring(1)]. *)
Definition substring01 (s : string) : string :=
  match s with String c _ => String c EmptyString | EmptyString => EmptyString end.
Definition substring1 (s : string) : string :=
  match s with String _ r => r | EmptyString => EmptyString end.

(** *** [split] on the two separators the controllers use *)

(** Does [\s*,\s*] match at the head of [s]?  If so, the text after the
    match. *)
Definition matchComma (s : string) : option string :=
  match dropSpaces s with
  | String "," r => Some (dropSpaces r)
  | _ => None
  end.

Fixpoint hasBlank (s : string) : bool :=
  match s with
  | String c r => isSpace c && ((nat_of_ascii c =? 32)%nat || hasBlank r)
  | EmptyString => false
  end.

(** Does [\s* \s*] match at the head of [s]?  The run of white space at
    the head must hold a blank; the match then covers the whole run. *)
Definition matchBlank (s : string) : option string :=
  if hasBlank s then Some (dropSpaces s) else None.

(** [s.split(sep)] for a separator that never matches the empty string:
    scan left to right, cut at the first position where the separator
    matches, resume after the match. [fuel] bounds the recursion and is
    the length of the text. *)
Fixpoint splitAux (m : string -> option string) (fuel : nat)
    (cur : string) (s : string) : list string :=
  match fuel with
  | O => [cur]
  | S fuel' =>
      match s with
      | EmptyString => [cur]
      | String c r =>
          match m s with
          | Some rest => cur :: splitAux m fuel' EmptyString rest
          | None => splitAux m fuel' (cur ++ String c EmptyString) r
          end
      end
  end.

Definition split (m : string -> option string) (s : string) : list string :=
  splitAux m (S (String.length s)) EmptyString s.

Definition splitComma : string -> list string := split matchComma.
Definition splitBlank : string -> list string := split matchBlank.

(** Case-insensitive containment: [new RegExp(p, "i").test(s)] for a
    pattern [p] without regular-expression operators. *)
Fixpoint isPrefix (p s : string) : bool :=
  match p, s with
  | EmptyString, _ => true
  | String a p', String b s' => Ascii.eqb a b && isPrefix p' s'
  | String _ _, EmptyString => false
  end.

Fixpoint contains (p s : string) : bool :=
  isPrefix p s ||
  match s with
  | String _ r => contains p r
  | EmptyString => false
  end.

Definition regexTestI (p s : string) : bool :=
  contains (toUpperCase p) (toUpperCase s).

End JS.

(** ** Values, raw records and schemas *)

(** Document identifiers are opaque; the store numbers them. *)
Definition ObjectId := nat.

(** What a sheet cell, a form field or a stored field holds.  Numbers
    are integers here; a reference field of a request carries [VId]. *)
Inductive Value :=
  | VStr (s : string)
  | VNum (n : Z)
  | VId (i : ObjectId).

#[global] Instance Value_eq_dec : EqDecision Value.
Proof. solve_decision. Defined.

(** A JavaScript object used as a record: field name to value. *)
Abbreviation Obj := (gmap string Value).

(** String conversion as done by [+] on a possibly missing field. *)
Definition idText (i : ObjectId) : string := JS.showZ (Z.of_nat i).

Definition toStr (v : option Value) : string :=
  match v with
  | None => "undefined"
  | Some (VStr s) => s
  | Some (VNum n) => JS.showZ n
  | Some (VId i) => idText i
  end.

Inductive SchemaType := SString | SNumber | SObjectId.

Record Path := mkPath { ptype : SchemaType; penum : option (list string) }.

(** [Model.schema.obj]: the declared fields, in declaration order. *)
Definition Schema := list (string * Path).

Definition str : Path := mkPath SString None.
Definition num : Path := mkPath SNumber None.
Definition ref : Path := mkPath SObjectId None.
Definition enum (vs : list string) : Path := mkPath SString (Some vs).

Definition courseSchema : Schema :=
  [ ("department", str); ("number", num); ("univNumber", num);
    ("name", str);
    ("category", enum ["NA"; "Theory"; "Systems"; "Appls"]);
    ("topic", str); ("hours", num); ("section", str);
    ("faculty", ref); ("semester", ref) ].

Definition jobSchema : Schema :=
  [ ("position", enum ["RA"; "TA"; "OTHER"]);
    ("supervisor", ref); ("semester", ref); ("course", ref);
    ("description", str); ("hours", num); ("fundingSource", str) ].

Fixpoint schemaPath (sch : Schema) (k : string) : option Path :=
  match sch with
  | [] => None
  | (k', p) :: r => if String.eqb k' k then Some p else schemaPath r k
  end.

(** ** Stored documents *)

(** A Course or a Job document: its [_id] and its schema fields. *)
Record Doc := mkDoc { doc_id : ObjectId; fields : Obj }.

Record Faculty := mkFaculty
  { faculty_id : ObjectId; lastName : string; firstName : string }.

Record Semester := mkSemester
  { semester_id : ObjectId; year : Z; season : string }.

Record Grade := mkGrade
  { grade_id : ObjectId; grade : string; grade_course : ObjectId }.

(** A Student document.  [jobHistory] and [grades] are the declared
    reference lists.  [courseHistory] is the array the course guard
    queries with [$elemMatch: {_id: id}]; it lists the [_id], an
    ObjectId, of each stored element of that array.  The Student schema
    declares no such path: documents saved through the model carry an
    empty one, and a query on it is not cast. *)
Record Student := mkStudent
  { student_id : ObjectId; onyen : string;
    jobHistory : list ObjectId; grades : list ObjectId;
    courseHistory : list ObjectId }.

Record Store := mkStore
  { faculties : list Faculty; semesters : list Semester;
    students : list Student; gradeDocs : list Grade;
    courses : list Doc; jobs : list Doc;
    nextId : ObjectId }.

Definition setCourses (cs : list Doc) (st : Store) : Store :=
  mkStore (faculties st) (semesters st) (students st) (gradeDocs st)
          cs (jobs st) (nextId st).
Definition setJobs (js : list Doc) (st : Store) : Store :=
  mkStore (faculties st) (semesters st) (students st) (gradeDocs st)
          (courses st) js (nextId st).
Definition setStudents (ss : list Student) (st : Store) : Store :=
  mkStore (faculties st) (semesters st) ss (gradeDocs st)
          (courses st) (jobs st) (nextId st).
Definition bumpId (st : Store) : Store :=
  mkStore (faculties st) (semesters st) (students st) (gradeDocs st)
          (courses st) (jobs st) (S (nextId st)).

(** ** The persistence library (Mongoose), as far as the controllers use it *)

(** The settled state of a promise. *)
Inductive Promise (A : Type) :=
  | Resolve (a : A)
  | Reject (err : string).
Arguments Resolve {A} a.
Arguments Reject {A} err.

Module Mongoose.

(** Text that [Number(s)] reads as an integer: optional white space and
    sign around a run of digits, nothing else. *)
Fixpoint allDigits (s : string) : bool :=
  match s with
  | EmptyString => true
  | String c r => JS.isDigit c && allDigits r
  end.

Fixpoint dropDigits (s : string) : string :=
  match s with
  | String c r => if JS.isDigit c then dropDigits r else s
  | EmptyString => EmptyString
  end.

Definition numberOfText (s : string) : option Z :=
  match JS.parseInt s with
  | Some n =>
      let body := match JS.dropSpaces s with
                  | String "-" r => r
                  | String "+" r => r
                  | r => r
                  end in
      match JS.dropSpaces (dropDigits body) with
      | EmptyString => Some n
      | _ => None
      end
  | None => None
  end.

(** Casting a value to the type of its path; [None] is a CastError.
    Text in a reference path is text that names no identifier. *)
Definition castValue (t : SchemaType) (v : Value) : option Value :=
  match t, v with
  | SString, VStr s => Some (VStr s)
  | SString, VNum n => Some (VStr (JS.showZ n))
  | SString, VId _ => None
  | SNumber, VNum n => Some (VNum n)
  | SNumber, VStr s => VNum <$> numberOfText s
  | SNumber, VId _ => None
  | SObjectId, VId i => Some (VId i)
  | SObjectId, _ => None
  end.

(** Casting one entry of a query filter: a declared path is cast to its
    type, [_id] to an identifier, any other key is sent as it is. *)
Definition castEntry (sch : Schema) (k : string) (v : Value) : option Value :=
  match schemaPath sch k with
  | Some p => castValue (ptype p) v
  | None => if String.eqb k "_id" then castValue SObjectId v else Some v
  end.

Fixpoint castEntries (sch : Schema) (l : list (string * Value))
  : option (list (string * Value)) :=
  match l with
  | [] => Some []
  | (k, v) :: r =>
      match castEntry sch k v, castEntries sch r with
      | Some v', Some r' => Some ((k, v') :: r')
      | _, _ => None
      end
  end.

Definition castFilter (sch : Schema) (filter : Obj)
  : option (list (string * Value)) :=
  castEntries sch (map_to_list filter).

(** Does a stored document satisfy one (cast) equality condition? *)
Definition holds (d : Doc) (kv : string * Value) : bool :=
  if String.eqb (fst kv) "_id"
  then bool_decide (snd kv = VId (doc_id d))
  else bool_decide (fields d !! fst kv = Some (snd kv)).

Definition matches (conds : list (string * Value)) (d : Doc) : bool :=
  forallb (holds d) conds.

(** [Model.find(filter)] and [Model.findOne(filter)]: the documents, or
    the first document in natural order, satisfying every condition. *)
Definition find (sch : Schema) (coll : list Doc) (filter : Obj)
  : Promise (list Doc) :=
  match castFilter sch filter with
  | Some conds => Resolve (List.filter (matches conds) coll)
  | None => Reject "CastError"
  end.

Definition findOne (sch : Schema) (coll : list Doc) (filter : Obj)
  : Promise (option Doc) :=
  match find sch coll filter with
  | Resolve ds => Resolve (head ds)
  | Reject e => Reject e
  end.

(** [new Model(obj)]: the declared paths of [obj], each cast; other keys
    are dropped (strict schemas).  [None] when a cast fails. *)
Fixpoint construct (sch : Schema) (obj : Obj) : option Obj :=
  match sch with
  | [] => Some ∅
  | (k, p) :: r =>
      match obj !! k with
      | None => construct r obj
      | Some v =>
          match castValue (ptype p) v, construct r obj with
          | Some v', Some o => Some (<[k := v']> o)
          | _, _ => None
          end
      end
  end.

(** The enum validator of a path. *)
Definition enumOk (p : Path) (v : Value) : bool :=
  match penum p, v with
  | Some vs, VStr s => existsb (String.eqb s) vs
  | Some _, _ => false
  | None, _ => true
  end.

Definition validate (sch : Schema) (o : Obj) : bool :=
  forallb (fun kp => match o !! fst kp with
                     | Some v => enumOk (snd kp) v
                     | None => true
                     end) sch.

(** [new Model(obj).save()] prepared: the document to insert, or the
    validation failure. *)
Definition prepare (sch : Schema) (obj : Obj) : Promise Obj :=
  match construct sch obj with
  | None => Reject "ValidationError"
  | Some o => if validate sch o then Resolve o else Reject "ValidationError"
  end.

(** [findOneAndRemove({_id: id})] on a collection: the removed document
    (if any) and the collection without it. *)
Fixpoint removeById (id : ObjectId) (coll : list Doc)
  : option Doc * list Doc :=
  match coll with
  | [] => (None, [])
  | d :: r =>
      if Nat.eqb (doc_id d) id then (Some d, r)
      else let '(x, r') := removeById id r in (x, d :: r')
  end.

(** [findOneAndUpdate({_id: id}, upd)]: the (cast) fields of [upd] are
    set on the first document with that [_id]; validators do not run on
    updates.  The result is the document found, if any. *)
Fixpoint updateById (id : ObjectId) (upd : Obj) (coll : list Doc)
  : option Doc * list Doc :=
  match coll with
  | [] => (None, [])
  | d :: r =>
      if Nat.eqb (doc_id d) id
      then (Some d, mkDoc (doc_id d) (upd ∪ fields d) :: r)
      else let '(x, r') := updateById id upd r in (x, d :: r')
  end.

End Mongoose.

(** ** controllers/util.js *)

Module util.

Definition isEmpty (v : Value) : bool :=
  match v with
  | VStr EmptyString => true
  | _ => false
  end.

(** Modelled from the spec: controllers/util.js is not among the
    sources.  "[allRequiredFieldsPresent(rawRecord, entitySchema)]
    reports whether every field declared on the schema is present and
    non-empty in the raw record." *)
Definition allFieldsExist (input : Obj) (sch : Schema) : bool :=
  forallb (fun kp => match input !! fst kp with
                     | Some v => negb (isEmpty v)
                     | None => false
                     end) sch.

Definition coerce (t : SchemaType) (v : Value) : Value :=
  match t, v with
  | SNumber, VStr s =>
      match Mongoose.numberOfText s with
      | Some n => VNum n
      | None => v
      end
  | _, _ => v
  end.

Fixpoint project (input : Obj) (sch : Schema) : Obj :=
  match sch with
  | [] => ∅
  | (k, p) :: r =>
      match input !! k with
      | Some v =>
          if isEmpty v then project input r
          else <[k := coerce (ptype p) v]> (project input r)
      | None => project input r
      end
  end.

(** Modelled from the spec: controllers/util.js is not among the
    sources.  "[project(rawRecord, entitySchema)] retains only keys
    present in the schema's declared field set, with values coerced to
    the declared type where unambiguous (string pass-through; numeric
    parse for numeric fields; identifier pass-through for reference
    fields).  Unknown keys are silently dropped."  The controllers add:
    empty fields are removed (comment in [get]), and [_id] is kept
    ([put] reads [input._id] after the call). *)
Definition validateModelData (input : Obj) (sch : Schema) : Obj :=
  match input !! "_id" with
  | Some v => <["_id" := v]> (project input sch)
  | None => project input sch
  end.

End util.

(** ** What a handler does besides touching the store *)

Inductive Response :=
  | Render (msg : string)     (* res.render("../views/error.ejs", {string: msg}) *)
  | Redirect (url : string)   (* res.redirect(url) *)
  | Json (err origin : string).

(** The calls a handler makes on [res], the exception it throws to its
    caller, and the promise rejections no handler is attached to, in the
    order they happen.  (Only the first call on [res] reaches the
    client.) *)
Inductive Event :=
  | Sent (r : Response)
  | Thrown (e : string)
  | Unhandled (e : string).

Definition Outcome : Type := list Event * Store.

(** [v.length != 4] for a field value. *)
Definition lengthNot4 (v : option Value) : bool :=
  match v with
  | Some (VStr s) => negb (Nat.eqb (String.length s) 4)
  | _ => true
  end.

(** [new Model(obj).save()] on a collection of the store. *)
Definition saveCourse (obj : Obj) (st : Store) : Promise (Doc * Store) :=
  match Mongoose.prepare courseSchema obj with
  | Resolve o =>
      let d := mkDoc (nextId st) o in
      Resolve (d, bumpId (setCourses (courses st ++ [d]) st))
  | Reject e => Reject e
  end.

Definition saveJob (obj : Obj) (st : Store) : Promise (Doc * Store) :=
  match Mongoose.prepare jobSchema obj with
  | Resolve o =>
      let d := mkDoc (nextId st) o in
      Resolve (d, bumpId (setJobs (jobs st ++ [d]) st))
  | Reject e => Reject e
  end.

(** ** The uploaded sheet *)

Module Sheet.

(** [workbook.Sheets[...]]: cell address (or ["!ref"] and the like) to
    the cell's value [.v], in the order [for (z in worksheet)] visits. *)
Definition Worksheet := list (string * Value).

(** [headers[String.fromCharCode(i+65)] = field], for the fields in
    order, starting at column number [i]. *)
Fixpoint mkHeaders (i : nat) (flds : list string) (headers : gmap string string)
  : gmap string string :=
  match flds with
  | [] => headers
  | f :: r =>
      mkHeaders (S i) r (<[String (ascii_of_nat (i + 65)) EmptyString := f]> headers)
  end.

(** The property name [headers[col]] turns into when used as a key. *)
Definition headerOf (headers : gmap string string) (col : string) : string :=
  default "undefined" (headers !! col).

(** [data]: a sparse array; [None] is a hole. *)
Definition Data := list (option Obj).

Definition getAt (i : nat) (data : Data) : Obj :=
  match data !! i with
  | Some (Some o) => o
  | _ => ∅
  end.

(** [data[i] = o]: the array grows with holes up to index [i]. *)
Fixpoint setAt (i : nat) (o : Obj) (data : Data) : Data :=
  match i, data with
  | O, [] => [Some o]
  | O, _ :: r => Some o :: r
  | S i', [] => None :: setAt i' o []
  | S i', x :: r => x :: setAt i' o r
  end.

Definition isBang (z : string) : bool :=
  match z with
  | String "!" _ => true
  | _ => false
  end.

(** One turn of the loop over the worksheet.  A row that is not a
    non-negative integer names a property of the array, not an element. *)
Definition addCell (headers : gmap string string) (data : Data)
    (cell : string * Value) : Data :=
  let z := fst cell in
  if isBang z then data
  else
    let col := JS.substring01 z in
    let value := snd cell in
    match JS.parseInt (JS.substring1 z) with
    | Some row =>
        if 0 <=? row
        then setAt (Z.to_nat row)
                   (<[headerOf headers col := value]> (getAt (Z.to_nat row) data))
                   data
        else data
    | None => data
    end.

Definition readData (headers : gmap string string) (ws : Worksheet) : Data :=
  fold_left (addCell headers) ws [].

(** [data.shift()]. *)
Definition shift (data : Data) : Data := tail data.

(** The elements [data.forEach] visits: holes are skipped. *)
Definition elements (data : Data) : list Obj := omap id data.

(** The result of the callback of [forEach] on one element: either the
    effects of its promise chain, or an exception thrown before the
    chain was started, which leaves [forEach]. *)
Inductive Row :=
  | Chain (o : Outcome)
  | Throws (e : string).

Fixpoint forEach (f : Obj -> Store -> Row) (rows : list Obj) (st : Store)
  : list Event * Store * bool :=
  match rows with
  | [] => ([], st, true)
  | element :: r =>
      match f element st with
      | Throws e => ([Thrown e], st, false)
      | Chain (ev, st') =>
          let '(ev', st'', ok) := forEach f r st' in
          ((ev ++ ev')%list, st'', ok)
      end
  end.

End Sheet.

(** ** Lookups shared by the two imports *)

(** [Faculty.findOne({lastName: /last/i, firstName: /first/i})]; a
    missing [first] gives the pattern that matches everything. *)
Definition findFaculty (last : string) (first : option string) (st : Store)
  : option Faculty :=
  head (List.filter
          (fun f => JS.regexTestI last (lastName f) &&
                    match first with
                    | Some p => JS.regexTestI p (firstName f)
                    | None => true
                    end)
          (faculties st)).

(** [Semester.findOne({season: s, year: y})]; [NaN] does not cast to a
    number. *)
Definition findSemester (s : string) (y : option Z) (st : Store)
  : Promise (option Semester) :=
  match y with
  | Some y =>
      Resolve (head (List.filter
                       (fun x => String.eqb (season x) s && (year x =? y))
                       (semesters st)))
  | None => Reject "CastError"
  end.

(** [parseInt(semester[1])]. *)
Definition parseYear (semester : list string) : option Z :=
  match semester !! 1%nat with
  | Some s => JS.parseInt s
  | None => None
  end.

(** ** controllers/CourseController.js *)

Module courseController.

(** [post]: [populate] only decorates a document that was found and is
    left out. *)
Definition post (body : Obj) (st : Store) : Outcome :=
  let input := body in
  if util.allFieldsExist input courseSchema then
    match Mongoose.findOne courseSchema (courses st) input with
    | Resolve (Some _) =>
        ([Sent (Render "This course already exists.")], st)
    | Resolve None =>
        if lengthNot4 (input !! "department") then
          ([Sent (Render "Please input four letter department code")], st)
        else
          match saveCourse (util.validateModelData input courseSchema) st with
          | Resolve (result, st') =>
              ([Sent (Redirect ("/course/edit/" ++ idText (doc_id result)))], st')
          | Reject e => ([Unhandled e], st)
          end
    | Reject e => ([Sent (Render e)], st)
    end
  else
    (* throw new error("RequiredParamNotFound"): [error] is not defined *)
    ([Thrown "ReferenceError: error is not defined"], st).

(** [put]: the department test renders the error page and falls through
    to the update.  A request without [_id] is taken to find no
    document. *)
Definition put (body : Obj) (st : Store) : Outcome :=
  let input := util.validateModelData body courseSchema in
  if util.allFieldsExist input courseSchema then
    let warned :=
      if lengthNot4 (input !! "department")
      then [Sent (Render "Please input four letter department code")]
      else [] in
    match input !! "_id", Mongoose.construct courseSchema input with
    | Some (VId id), Some upd =>
        let '(result, cs) := Mongoose.updateById id upd (courses st) in
        match result with
        | Some d =>
            ((warned ++ [Sent (Redirect ("/course/edit/" ++ idText (doc_id d)))])%list,
             setCourses cs st)
        | None => ((warned ++ [Sent (Json "CourseNotFound" "course.put")])%list, st)
        end
    | None, Some _ =>
        ((warned ++ [Sent (Json "CourseNotFound" "course.put")])%list, st)
    | _, _ => ((warned ++ [Sent (Json "CastError" "course.put")])%list, st)
    end
  else ([Thrown "RequiredParamNotFound"], st).

(** A request value as a query sends it on a path the schema does not
    declare: nothing casts it, so the text of an identifier stays
    text. *)
Definition uncast (v : Value) : Value :=
  match v with
  | VId i => VStr (idText i)
  | _ => v
  end.

(** The students found by
    [Student.find({courseHistory: {$elemMatch: {_id: id}}})].  The
    Student schema has no [courseHistory] path, so [id] goes out as the
    URL gave it and is compared with the ObjectId [_id] of each stored
    element. *)
Definition studentsWithCourse (id : Value) (st : Store) : list Student :=
  List.filter
    (fun s => existsb (fun e => bool_decide (VId e = uncast id)) (courseHistory s))
    (students st).

(** [delete], with [id = req.params._id]. *)
Definition delete (id : option Value) (st : Store) : Outcome :=
  match id with
  | Some id =>
      (* check if any students reference this course *)
      let result := studentsWithCourse id st in
      if (0 <? length result)%nat then
        ([Sent (Render "Could not delete course because student is referencing it.")], st)
      else
        (* check if any jobs reference this course *)
        match Mongoose.find jobSchema (jobs st) {[ "course" := id ]} with
        | Resolve result =>
            if (0 <? length result)%nat then
              ([Sent (Render "Could not delete course because job is referencing it.")], st)
            else
              (* nothing references this course, so try to delete it *)
              match id with
              | VId i =>
                  let '(result, cs) := Mongoose.removeById i (courses st) in
                  match result with
                  | Some _ => ([Sent (Redirect "/course")], setCourses cs st)
                  | None => ([Unhandled "CourseNotFound"], st)
                  end
              | _ => ([Unhandled "CastError"], st)
              end
        | Reject e => ([Unhandled e], st)
        end
  | None => ([Thrown "RequiredParamNotFound"], st)
  end.

(** The [switch] on [element.category]: the cases are compared with
    [===] from top to bottom. *)
Definition normalizeCategory (c : Value) : Value :=
  match c with
  | VStr s =>
      if String.eqb s "t" || String.eqb s "T" then VStr "Theory"
      else if String.eqb s "s" || String.eqb s "S" then VStr "Systems"
      else if String.eqb s "a" || String.eqb s "A" ||
              String.eqb s "applications" || String.eqb s "Applications"
      then VStr "Appls"
      else c
  | _ => c
  end.

Definition switchCategory (element : Obj) : Obj :=
  match element !! "category" with
  | Some c => <["category" := normalizeCategory c]> element
  | None => element
  end.

Definition name (element : Obj) : string := toStr (element !! "name").

(** The callback of [data.forEach] in [courseController.upload]. *)
Definition uploadRow (element : Obj) (st : Store) : Sheet.Row :=
  if util.allFieldsExist element courseSchema then
    match element !! "faculty", element !! "semester" with
    | Some (VStr fac), Some (VStr sem) =>
        (* var reg = /\s*,\s*/; both fields are split with it *)
        let facultyName := JS.splitComma fac in
        let semester := JS.splitComma sem in
        Sheet.Chain
          match findFaculty (nth 0 facultyName "") (facultyName !! 1%nat) st with
          | Some result =>
              let element := <["faculty" := VId (faculty_id result)]> element in
              match findSemester (JS.toUpperCase (nth 0 semester ""))
                                 (parseYear semester) st with
              | Resolve (Some result) =>
                  let element := <["semester" := VId (semester_id result)]> element in
                  let element := switchCategory element in
                  match Mongoose.findOne courseSchema (courses st) element with
                  | Resolve None =>
                      match saveCourse element st with
                      | Resolve (_, st') => ([], st')
                      | Reject _ =>
                          ([Sent (Render (name element ++
                              " did not save because something is wrong with it."))], st)
                      end
                  | Resolve (Some _) => ([], st)
                  | Reject e => ([Unhandled e], st)
                  end
              | Resolve None =>
                  ([Sent (Render (name element ++
                      " did not save because the semester is incorrect."))], st)
              | Reject e => ([Unhandled e], st)
              end
          | None =>
              ([Sent (Render (name element ++
                  " did not save because the faculty is incorrect."))], st)
          end
    | _, _ => Sheet.Throws "TypeError"
    end
  else
    Sheet.Chain
      ([Sent (Render (name element ++
          " did not save because it is missing a field."))], st).

Definition headers : gmap string string :=
  Sheet.mkHeaders 0 (map fst courseSchema) ∅.

(** [courseController.upload], from the parsed worksheet on.  The
    redirect is sent as soon as the rows are dispatched; the log lists
    it after the events of the rows. *)
Definition upload (worksheet : Sheet.Worksheet) (st : Store) : Outcome :=
  let data := Sheet.readData headers worksheet in
  (* drop those first two rows which are empty *)
  let data := Sheet.shift data in
  let data := Sheet.shift data in
  let '(ev, st', ok) := Sheet.forEach uploadRow (Sheet.elements data) st in
  ((ev ++ if ok then [Sent (Redirect "/course/upload")] else [])%list, st').

End courseController.

(** ** controllers/JobController.js *)

Module jobController.

(** [post] *)
Definition post (body : Obj) (st : Store) : Outcome :=
  let input := util.validateModelData body jobSchema in
  match input !! "position", input !! "supervisor" with
  | Some _, Some _ =>
      match Mongoose.findOne jobSchema (jobs st) input with
      | Resolve (Some _) => ([Sent (Render "This job already exists.")], st)
      | Resolve None =>
          match saveJob (util.validateModelData input jobSchema) st with
          | Resolve (result, st') =>
              ([Sent (Redirect ("/job/edit/" ++ idText (doc_id result)))], st')
          | Reject e => ([Unhandled e], st)
          end
      | Reject e => ([Sent (Render e)], st)
      end
  | _, _ => ([Sent (Render "Required parameter not found")], st)
  end.

(** The students found by [Student.find({jobHistory: id})]. *)
Definition studentsWithJob (id : ObjectId) (st : Store) : list Student :=
  List.filter (fun s => existsb (Nat.eqb id) (jobHistory s)) (students st).

(** [delete], with [id = req.params._id]. *)
Definition delete (id : option Value) (st : Store) : Outcome :=
  match id with
  | Some (VId id) =>
      (* students reference jobs, so check if any students are
         referencing before deleting *)
      let result := studentsWithJob id st in
      if (0 <? length result)%nat then
        ([Sent (Render "Could not delete job because a student is referencing it.")], st)
      else
        (* nothing references this job, so try to delete it *)
        let '(result, js) := Mongoose.removeById id (jobs st) in
        match result with
        | Some _ => ([Sent (Redirect "/job")], setJobs js st)
        | None => ([Unhandled "JobNotFound"], st)
        end
  | Some _ => ([Unhandled "CastError"], st)
  | None => ([Thrown "RequiredParamNotFound"], st)
  end.

(** [$addToSet: {jobHistory: jobId}] on one student. *)
Definition addToSet (jobId : ObjectId) (s : Student) : Student :=
  if existsb (Nat.eqb jobId) (jobHistory s) then s
  else mkStudent (student_id s) (onyen s) (jobHistory s ++ [jobId])
                 (grades s) (courseHistory s).

(** [Student.update({onyen: o}, upd)]: the first student with that
    onyen is updated. *)
Fixpoint updateFirst (o : string) (upd : Student -> Student)
    (ss : list Student) : list Student :=
  match ss with
  | [] => []
  | s :: r =>
      if String.eqb (onyen s) o then upd s :: r
      else s :: updateFirst o upd r
  end.

(** The promise [pushStudentJob] returns: resolved (the update is
    issued), rejected (no such student), or never settled (the query
    itself failed). *)
Inductive Pushed :=
  | PushResolved (st : Store)
  | PushRejected
  | PushPending.

Definition pushStudentJob (onyen' : option Value) (jobId : ObjectId)
    (st : Store) : Pushed :=
  match onyen' with
  | None => PushRejected
  | Some v =>
      match Mongoose.castValue SString v with
      | Some (VStr o) =>
          match head (List.filter (fun s => String.eqb (onyen s) o) (students st)) with
          | Some _ =>
              PushResolved (setStudents (updateFirst o (addToSet jobId) (students st)) st)
          | None => PushRejected
          end
      | _ => PushPending
      end
  end.

(** What both branches of the duplicate check do with the promise of
    [pushStudentJob]. *)
Definition pushed (element : Obj) (jobId : ObjectId) (st : Store) : Outcome :=
  match pushStudentJob (element !! "onyen") jobId st with
  | PushResolved st' => ([], st')
  | PushRejected =>
      ([Sent (Render ("Student " ++ toStr (element !! "onyen") ++
                      " did not save job " ++ toStr (element !! "position") ++
                      " because student was not found."))], st)
  | PushPending => ([Unhandled "CastError"], st)
  end.

Definition label (element : Obj) : string :=
  toStr (element !! "position") ++ " " ++ toStr (element !! "supervisor").

(** The callback of [data.forEach] in [upload]. *)
Definition uploadRow (element : Obj) (st : Store) : Sheet.Row :=
  match element !! "position", element !! "supervisor", element !! "semester" with
  | Some position, Some supervisor, Some semester =>
      match supervisor, semester with
      | VStr sup, VStr sem =>
          let facultyName := JS.splitComma sup in   (* commaReg *)
          let semester := JS.splitBlank sem in      (* spaceReg *)
          Sheet.Chain
            match findFaculty (nth 0 facultyName "") (facultyName !! 1%nat) st with
            | Some result =>
                let element := <["supervisor" := VId (faculty_id result)]> element in
                match findSemester (JS.toUpperCase (nth 0 semester ""))
                                   (parseYear semester) st with
                | Resolve (Some result) =>
                    let element := <["semester" := VId (semester_id result)]> element in
                    match position with
                    | VStr p =>
                        let element := <["position" := VStr (JS.toUpperCase p)]> element in
                        match element !! "course" with
                        | Some _ =>
                            (* element.course.split(reg): [reg] is not
                               declared in this file *)
                            ([Unhandled "ReferenceError: reg is not defined"], st)
                        | None =>
                            match Mongoose.findOne jobSchema (jobs st)
                                    (util.validateModelData element jobSchema) with
                            | Resolve None =>
                                (* if the job doesn't exist, try to make it *)
                                match saveJob element st with
                                | Resolve (result, st') =>
                                    (* save to student's job history *)
                                    pushed element (doc_id result) st'
                                | Reject _ =>
                                    ([Sent (Render (label element ++
                                        " did not save because something is wrong with it"))], st)
                                end
                            | Resolve (Some result) => pushed element (doc_id result) st
                            | Reject e => ([Unhandled e], st)
                            end
                        end
                    | _ => ([Unhandled "TypeError"], st)
                    end
                | Resolve None =>
                    ([Sent (Render (label element ++
                        " did not save because the semester is incorrect."))], st)
                | Reject e => ([Unhandled e], st)
                end
            | None =>
                ([Sent (Render (label element ++
                    " did not save because the faculty is incorrect."))], st)
            end
      | _, _ => Sheet.Throws "TypeError"
      end
  | _, _, _ =>
      Sheet.Chain
        ([Sent (Render (label element ++
            " did not save because it is missing a field."))], st)
  end.

(** [headers]: column A is the onyen, then the declared fields. *)
Definition headers : gmap string string :=
  Sheet.mkHeaders 1 (map fst jobSchema) (<["A" := "onyen"]> ∅).

(** [upload], from the parsed worksheet on; the log lists the redirect
    after the events of the rows. *)
Definition upload (worksheet : Sheet.Worksheet) (st : Store) : Outcome :=
  let data := Sheet.readData headers worksheet in
  (* drop those first two rows which are empty *)
  let data := Sheet.shift data in
  let data := Sheet.shift data in
  let '(ev, st', ok) := Sheet.forEach uploadRow (Sheet.elements data) st in
  ((ev ++ if ok then [Sent (Redirect "/job/upload")] else [])%list, st').

(** [put] *)
Definition put (body : Obj) (st : Store) : Outcome :=
  let input := util.validateModelData body jobSchema in
  match input !! "position", input !! "supervisor", input !! "_id" with
  | Some _, Some _, Some id =>
      match id, Mongoose.construct jobSchema input with
      | VId id, Some upd =>
          let '(result, js) := Mongoose.updateById id upd (jobs st) in
          match result with
          | Some d =>
              ([Sent (Redirect ("/job/edit/" ++ idText (doc_id d)))], setJobs js st)
          | None => ([Sent (Json "JobNotFound" "job.put")], st)
          end
      | _, _ => ([Sent (Json "CastError" "job.put")], st)
      end
  | _, _, _ => ([Thrown "RequiredParamNotFound"], st)
  end.

(** [input.students] as the form parser delivers it: one text, or an
    array when several students are ticked. *)
Inductive Students :=
  | One (student : Value)
  | Many (students : list Value).

(** [if(typeof(input.students) == "string") input.students = [input.students]] *)
Definition toArray (f : Students) : list Value :=
  match f with
  | One v => [v]
  | Many vs => vs
  end.

(** [Student.findOne({_id: student})]. *)
Definition studentById (id : ObjectId) (st : Store) : option Student :=
  head (List.filter (fun s => Nat.eqb (student_id s) id) (students st)).

(** The callback of [input.students.forEach] in [assign]. *)
Definition assignOne (jobId : ObjectId) (acc : Outcome) (student : Value)
  : Outcome :=
  let '(ev, st) := acc in
  match student with
  | VId sid =>
      match studentById sid st with
      | Some result =>
          match pushStudentJob (Some (VStr (onyen result))) jobId st with
          | PushResolved st' => (ev, st')
          | PushRejected => ((ev ++ [Sent (Render "Student not found")])%list, st)
          | PushPending => ((ev ++ [Unhandled "CastError"])%list, st)
          end
      | None => ((ev ++ [Sent (Render "Student not found")])%list, st)
      end
  | _ => ((ev ++ [Unhandled "CastError"])%list, st)
  end.

(** [assign], with [jobId = req.params._id] and [input.students]: the
    redirect is sent once the lookups of the students are dispatched. *)
Definition assign (jobId : option Value) (students' : option Students)
    (st : Store) : Outcome :=
  match jobId, students' with
  | Some jobId, Some field =>
      match jobId with
      | VId j =>
          (* make sure the job is in the database *)
          match head (List.filter (fun d => Nat.eqb (doc_id d) j) (jobs st)) with
          | Some _ =>
              fold_left (assignOne j) (toArray field)
                        ([Sent (Redirect ("/job/assign/" ++ idText j))], st)
          | None => ([Sent (Render "Job not found")], st)
          end
      | _ => ([Unhandled "CastError"], st)
      end
  | _, _ => ([Sent (Render "Required parameter not found")], st)
  end.

(** [$pull: {jobHistory: jobId}] on one student. *)
Definition pull (jobId : ObjectId) (s : Student) : Student :=
  mkStudent (student_id s) (onyen s)
            (List.filter (fun j => negb (Nat.eqb j jobId)) (jobHistory s))
            (grades s) (courseHistory s).

(** [Student.update({_id: id}, upd)]: the first student with that
    identifier is updated; none is no error. *)
Fixpoint updateStudentById (id : ObjectId) (upd : Student -> Student)
    (ss : list Student) : list Student :=
  match ss with
  | [] => []
  | s :: r =>
      if Nat.eqb (student_id s) id then upd s :: r
      else s :: updateStudentById id upd r
  end.

(** [unAssign], with [input = req.body]. *)
Definition unAssign (input : Obj) (st : Store) : Outcome :=
  match input !! "studentId", input !! "jobId" with
  | Some studentId, Some jobId =>
      match studentId, jobId with
      | VId sid, VId j =>
          ([Sent (Redirect ("/job/assign/" ++ toStr (Some jobId)))],
           setStudents (updateStudentById sid (pull j) (students st)) st)
      | _, _ => ([Sent (Render "Student was not found.")], st)
      end
  | _, _ => ([Sent (Render "Either student Id or job id is missing.")], st)
  end.

End jobController.

(** ** Vocabulary of the statements *)

(** A field a request leaves out: absent, or the empty text. *)
Definition missing (input : Obj) (k : string) : Prop :=
  input !! k = None \/ input !! k = Some (VStr "").

(** The field of a document a condition on key [k] is compared with. *)
Definition docField (d : Doc) (k : string) : option Value :=
  if String.eqb k "_id" then Some (VId (doc_id d)) else fields d !! k.

(** A stored document agrees with a raw record on every field the record
    provides, each provided value being read at the type of its path. *)
Definition agrees (sch : Schema) (input : Obj) (d : Doc) : Prop :=
  forall k v, input !! k = Some v ->
    exists v', Mongoose.castEntry sch k v = Some v' /\ docField d k = Some v'.

(** The same as a test. *)
Definition agreesb (sch : Schema) (input : Obj) (d : Doc) : bool :=
  match Mongoose.castFilter sch input with
  | Some conds => Mongoose.matches conds d
  | None => false
  end.

(** Every provided value can be read at the type of its path. *)
Definition castable (sch : Schema) (input : Obj) : Prop :=
  forall k v, input !! k = Some v -> is_Some (Mongoose.castEntry sch k v).

(** The jobs of the store that agree with a filter. *)
Definition agreeing (query : Obj) (st : Store) : list Doc :=
  List.filter (agreesb jobSchema query) (jobs st).

(** The category codes the course import rewrites. *)
Definition categoryCodes : list string :=
  ["t"; "T"; "s"; "S"; "a"; "A"; "applications"; "Applications"].

(** A job row as the duplicate check and the insertion see it:
    supervisor and semester resolved, position in upper case. *)
Definition resolvedRow (element : Obj) (p : string) (f : Faculty) (s : Semester)
  : Obj :=
  <["position" := VStr (JS.toUpperCase p)]>
    (<["semester" := VId (semester_id s)]>
       (<["supervisor" := VId (faculty_id f)]> element)).

(** The student a job row names: the first one whose onyen is the text
    of the onyen cell. *)
Definition rowStudent (element : Obj) (o : string) (st : Store)
  : option Student :=
  match element !! "onyen" with
  | Some v =>
      match Mongoose.castValue SString v with
      | Some (VStr o') =>
          if String.eqb o' o
          then head (List.filter (fun s => String.eqb (onyen s) o) (students st))
          else None
      | _ => None
      end
  | None => None
  end.

(** No comma in a text. *)
Fixpoint noComma (s : string) : bool :=
  match s with
  | EmptyString => true
  | String c r => negb (Ascii.eqb c ",") && noComma r
  end.

(** A student record that differs from another at most by identifiers
    added at the end of its job history. *)
Definition extends (s s' : Student) : Prop :=
  student_id s' = student_id s /\ onyen s' = onyen s /\
  grades s' = grades s /\ courseHistory s' = courseHistory s /\
  exists more, jobHistory s' = (jobHistory s ++ more)%list.

(** A store reached from another by appending documents and by adding
    to job histories only. *)
Definition grows (st st' : Store) : Prop :=
  faculties st' = faculties st /\ semesters st' = semesters st /\
  gradeDocs st' = gradeDocs st /\
  (exists more, courses st' = (courses st ++ more)%list) /\
  (exists more, jobs st' = (jobs st ++ more)%list) /\
  Forall2 extends (students st) (students st') /\
  (nextId st <= nextId st')%nat.

(** The frame of the job import: nothing but appended jobs and longer
    job histories. *)
Definition jobFrame (st st' : Store) : Prop :=
  grows st st' /\ courses st' = courses st.

(** The frame of the course import: nothing but appended courses. *)
Definition courseFrame (st st' : Store) : Prop :=
  grows st st' /\ jobs st' = jobs st /\ students st' = students st.

(** Every stored Course and Job carries an identifier the store has
    already issued, and no identifier twice within its collection. *)
Definition issuedIn (next : ObjectId) (coll : list Doc) : Prop :=
  Forall (fun i => (i < next)%nat) (map doc_id coll) /\
  NoDup (map doc_id coll).

Definition issued (st : Store) : Prop :=
  issuedIn (nextId st) (courses st) /\ issuedIn (nextId st) (jobs st).

(** The column letter of column number [i] (0 is A). *)
Definition column (i : nat) : string :=
  String (ascii_of_nat (i + 65)) EmptyString.

(** The request body of [unAssign]. *)
Definition unAssignBody (sid j : ObjectId) : Obj :=
  <["studentId" := VId sid]> (<["jobId" := VId j]> ∅).

(** A course row as the duplicate check and the insertion see it:
    faculty and semester resolved, category normalized. *)
Definition resolvedCourse (element : Obj) (f : Faculty) (s : Semester) : Obj :=
  courseController.switchCategory
    (<["semester" := VId (semester_id s)]>
       (<["faculty" := VId (faculty_id f)]> element)).

(** The cells of sheet row [r], as the loop of the imports reads a cell
    address: the text after the first character, parsed as a number. *)
Definition inRow (r : Z) (cell : string * Value) : bool :=
  negb (Sheet.isBang (fst cell)) &&
  bool_decide (JS.parseInt (JS.substring1 (fst cell)) = Some r).

(** The worksheet with the cells of sheet row [r] taken out. *)
Definition withoutRow (r : Z) (ws : Sheet.Worksheet) : Sheet.Worksheet :=
  List.filter (fun cell => negb (inRow r cell)) ws.

(** ** Worked inputs *)

(** *** Stores *)

Definition jane : Faculty := mkFaculty 1%nat "Smith" "Jane".
Definition fa2024 : Semester := mkSemester 2%nat 2024 "FA".
Definition jdoe : Student := mkStudent 3%nat "jdoe" [] [] [].

(** Faculty Smith/Jane, Semester 2024/FA, student jdoe; no Course, no
    Job. *)
Definition campus : Store :=
  mkStore [jane] [fa2024] [jdoe] [] [] [] 10%nat.

(** A TA job supervised by Jane Smith, held by jdoe ([assigned]) or by
    nobody ([unassigned]). *)
Definition ta10 : Doc :=
  mkDoc 10%nat (<["position" := VStr "TA"]> (<["supervisor" := VId 1%nat]> ∅)).

Definition assigned : Store :=
  mkStore [jane] [fa2024] [mkStudent 3%nat "jdoe" [10%nat] [] []] [] [] [ta10] 11%nat.

Definition unassigned : Store :=
  mkStore [jane] [fa2024] [jdoe] [] [] [ta10] 11%nat.

(** The same job with its semester, as the import stores it. *)
Definition ta2024 : Doc :=
  mkDoc 10%nat (<["position" := VStr "TA"]> (<["supervisor" := VId 1%nat]>
               (<["semester" := VId 2%nat]> ∅))).

Definition hired : Store :=
  mkStore [jane] [fa2024] [jdoe] [] [] [ta2024] 11%nat.

(** Student jdoe holds grade 20, which was given for course 30. *)
Definition comp410 : Doc :=
  mkDoc 30%nat (<["department" := VStr "COMP"]> (<["number" := VNum 410]> ∅)).

Definition graded : Store :=
  mkStore [jane] [fa2024] [mkStudent 3%nat "jdoe" [] [20%nat] []]
          [mkGrade 20%nat "P" 30%nat] [comp410] [] 31%nat.

(** A stored course whose department has two letters (the import does
    not test the length). *)
Definition cs410 : Doc :=
  mkDoc 30%nat
    (<["department" := VStr "CS"]> (<["number" := VNum 410]>
    (<["univNumber" := VNum 12345]> (<["name" := VStr "Foundations"]>
    (<["category" := VStr "Systems"]> (<["topic" := VStr "NA"]>
    (<["hours" := VNum 3]> (<["section" := VStr "001"]>
    (<["faculty" := VId 1%nat]> (<["semester" := VId 2%nat]> ∅)))))))))).

Definition catalog : Store :=
  mkStore [jane] [fa2024] [jdoe] [] [cs410] [] 31%nat.

(** The same catalog, with course 30 in the [courseHistory] array of
    jdoe's stored document. *)
Definition enrolled : Store :=
  mkStore [jane] [fa2024] [mkStudent 3%nat "jdoe" [] [] [30%nat]] []
          [cs410] [] 31%nat.

(** *** Sheets and rows *)

(** Job sheets: the row in sheet row 3, and the same row in sheet
    row 2. *)
Definition jobSheet : Sheet.Worksheet :=
  [ ("!ref", VStr "A1:D3");
    ("A1", VStr "onyen"); ("B1", VStr "position");
    ("A3", VStr "jdoe"); ("B3", VStr "ta");
    ("C3", VStr "Smith, Jane"); ("D3", VStr "FA 2024") ].

Definition row2JobSheet : Sheet.Worksheet :=
  [ ("!ref", VStr "A1:D2");
    ("A1", VStr "onyen"); ("B1", VStr "position");
    ("C1", VStr "supervisor"); ("D1", VStr "semester");
    ("A2", VStr "jdoe"); ("B2", VStr "ta");
    ("C2", VStr "Smith, Jane"); ("D2", VStr "FA 2024") ].

Definition taRow : Obj :=
  <["onyen" := VStr "jdoe"]> (<["position" := VStr "ta"]>
  (<["supervisor" := VStr "Smith, Jane"]> (<["semester" := VStr "FA 2024"]> ∅))).

(** A job row whose position is not one of the schema. *)
Definition graderSheet : Sheet.Worksheet :=
  [ ("A3", VStr "jdoe"); ("B3", VStr "grader");
    ("C3", VStr "Smith, Jane"); ("D3", VStr "FA 2024") ].

Definition graderRow : Obj :=
  <["onyen" := VStr "jdoe"]> (<["position" := VStr "grader"]>
  (<["supervisor" := VStr "Smith, Jane"]> (<["semester" := VStr "FA 2024"]> ∅))).

(** Course sheets.  Columns follow the Course schema: A department,
    B number, C univNumber, D name, E category, F topic, G hours,
    H section, I faculty, J semester.  [claimSheet] is the row of the
    import scenario; [fullSheet] fills in the three columns it leaves
    empty. *)
Definition row2CourseSheet : Sheet.Worksheet :=
  [ ("A1", VStr "department"); ("A2", VStr "four letters, e.g. COMP") ].

Definition claimSheet : Sheet.Worksheet :=
  [ ("A3", VStr "COMP"); ("B3", VNum 410); ("D3", VStr "Foundations");
    ("E3", VStr "s"); ("G3", VNum 3);
    ("I3", VStr "Smith, Jane"); ("J3", VStr "FA 2024") ].

Definition fullSheet (semester : string) : Sheet.Worksheet :=
  [ ("A3", VStr "COMP"); ("B3", VNum 410); ("C3", VNum 12345);
    ("D3", VStr "Foundations"); ("E3", VStr "s"); ("F3", VStr "NA");
    ("G3", VNum 3); ("H3", VStr "001");
    ("I3", VStr "Smith, Jane"); ("J3", VStr semester) ].

(** A complete course row as [forEach] receives it. *)
Definition compRow (semester : string) : Obj :=
  <["department" := VStr "COMP"]> (<["number" := VNum 410]>
  (<["univNumber" := VNum 12345]> (<["name" := VStr "Foundations"]>
  (<["category" := VStr "s"]> (<["topic" := VStr "NA"]>
  (<["hours" := VNum 3]> (<["section" := VStr "001"]>
  (<["faculty" := VStr "Smith, Jane"]> (<["semester" := VStr semester]> ∅))))))))).

(** *** Request bodies *)

Definition raBody : Obj :=
  <["position" := VStr "RA"]> (<["supervisor" := VId 1%nat]> ∅).


Definition noSupervisorBody : Obj := <["position" := VStr "TA"]> ∅.

Definition noTopicBody : Obj :=
  <["department" := VStr "COMP"]> (<["number" := VStr "410"]> (<["topic" := VStr ""]> ∅)).

Definition csOnlyBody : Obj := <["department" := VStr "CS"]> ∅.

(** A Course form with every field filled in. *)
Definition courseBody (department : string) : Obj :=
  <["department" := VStr department]> (<["number" := VStr "410"]>
  (<["univNumber" := VStr "12345"]> (<["name" := VStr "Foundations"]>
  (<["category" := VStr "Systems"]> (<["topic" := VStr "NA"]>
  (<["hours" := VStr "3"]> (<["section" := VStr "001"]>
  (<["faculty" := VId 1%nat]> (<["semester" := VId 2%nat]> ∅))))))))).

(** The document [courseBody "COMP"] is stored as. *)
Definition comp410Fields : Obj :=
  <["department" := VStr "COMP"]> (<["number" := VNum 410]>
  (<["univNumber" := VNum 12345]> (<["name" := VStr "Foundations"]>
  (<["category" := VStr "Systems"]> (<["topic" := VStr "NA"]>
  (<["hours" := VNum 3]> (<["section" := VStr "001"]>
  (<["faculty" := VId 1%nat]> (<["semester" := VId 2%nat]> ∅))))))))).

(** * Properties *)

(** ** The text helpers on the cells of the scenarios *)

Example split_faculty : JS.splitComma "Smith, Jane" = ["Smith"; "Jane"].
Proof. reflexivity. Qed.
Example split_semester_blank : JS.splitBlank "FA 2024" = ["FA"; "2024"].
Proof. reflexivity. Qed.
Example split_semester_comma : JS.splitComma "FA 2024" = ["FA 2024"].
Proof. reflexivity. Qed.
Example parseInt_year : JS.parseInt "2024" = Some 2024.
Proof. reflexivity. Qed.
Example parseInt_cell : JS.parseInt (JS.substring1 "B12") = Some 12.
Proof. reflexivity. Qed.
Example showZ_410 : JS.showZ 410 = "410".
Proof. reflexivity. Qed.

(** ** Category normalization *)

(** C9: the category switch of the course import maps "t"/"T" to
    "Theory", "s"/"S" to "Systems", "a"/"A"/"applications"/"Applications"
    to "Appls", and returns every other string unchanged; the import
    applies it to the category of the row. *)
Theorem category_normalization :
  courseController.normalizeCategory (VStr "t") = VStr "Theory" /\
  courseController.normalizeCategory (VStr "T") = VStr "Theory" /\
  courseController.normalizeCategory (VStr "s") = VStr "Systems" /\
  courseController.normalizeCategory (VStr "S") = VStr "Systems" /\
  courseController.normalizeCategory (VStr "a") = VStr "Appls" /\
  courseController.normalizeCategory (VStr "A") = VStr "Appls" /\
  courseController.normalizeCategory (VStr "applications") = VStr "Appls" /\
  courseController.normalizeCategory (VStr "Applications") = VStr "Appls" /\
  (forall s : string, s ∉ categoryCodes ->
     courseController.normalizeCategory (VStr s) = VStr s) /\
  (forall element : Obj,
     courseController.switchCategory element !! "category" =
     courseController.normalizeCategory <$> element !! "category").
Proof.
  repeat (split; [reflexivity|]).
  split.
  - intros s Hs. unfold categoryCodes in Hs.
    repeat (apply not_elem_of_cons in Hs as [? Hs]).
    unfold courseController.normalizeCategory.
    repeat match goal with
           | H : s <> ?c |- _ =>
               apply String.eqb_neq in H; rewrite H; clear H
           end.
    reflexivity.
  - intros element. unfold courseController.switchCategory.
    destruct (element !! "category") as [c|] eqn:E.
    + rewrite lookup_insert_eq. reflexivity.
    + rewrite E. reflexivity.
Qed.

Lemma category_normalization_witness :
  ("NA" ∉ categoryCodes) /\
  courseController.normalizeCategory (VStr "NA") = VStr "NA".
Proof.
  assert (H : "NA" ∉ categoryCodes).
  { unfold categoryCodes. intros H.
    repeat (apply elem_of_cons in H as [H|H]; [discriminate H|]).
    inversion H. }
  split; [exact H|].
  exact (proj1 (proj2 (proj2 (proj2 (proj2 (proj2 (proj2 (proj2
           (proj2 category_normalization)))))))) "NA" H).
Defined.

(** ** The delete guards *)

Lemma existsb_nat_elem (x : nat) (l : list nat) :
  existsb (Nat.eqb x) l = true <-> x ∈ l.
Proof.
  rewrite existsb_exists. split.
  - intros [y [Hy He]]. apply Nat.eqb_eq in He. subst y.
    apply list_elem_of_In. exact Hy.
  - intros H. exists x. split; [apply list_elem_of_In; exact H|apply Nat.eqb_refl].
Qed.

Lemma filter_nil_iff {A} (f : A -> bool) (l : list A) :
  List.filter f l = [] <-> forall x, x ∈ l -> f x = false.
Proof.
  induction l as [|a l IH]; simpl.
  - split; [intros _ x Hx; inversion Hx|reflexivity].
  - destruct (f a) eqn:Ea.
    + split; [discriminate|].
      intros H. specialize (H a (list_elem_of_here a l)). congruence.
    + rewrite IH. split.
      * intros H x Hx. apply elem_of_cons in Hx as [->|Hx]; auto.
      * intros H x Hx. apply H. apply list_elem_of_further. exact Hx.
Qed.

Lemma length_pos_filter {A} (f : A -> bool) (l : list A) (x : A) :
  x ∈ l -> f x = true -> (0 <? length (List.filter f l))%nat = true.
Proof.
  intros Hx Hf. apply Nat.ltb_lt.
  destruct (List.filter f l) eqn:E; simpl; [|lia].
  apply filter_nil_iff with (x := x) in E; [congruence|exact Hx].
Qed.

Lemma removeById_found (id : ObjectId) (coll : list Doc) :
  (exists j, j ∈ coll /\ doc_id j = id) ->
  exists j l1 l2,
    coll = (l1 ++ j :: l2)%list /\ doc_id j = id /\
    (forall x, x ∈ l1 -> doc_id x <> id) /\
    Mongoose.removeById id coll = (Some j, (l1 ++ l2)%list).
Proof.
  induction coll as [|d r IH]; intros [j [Hj Hid]].
  - inversion Hj.
  - simpl. destruct (Nat.eqb (doc_id d) id) eqn:E.
    + apply Nat.eqb_eq in E. exists d, [], r. simpl.
      repeat split; auto. intros x Hx. inversion Hx.
    + apply Nat.eqb_neq in E.
      apply elem_of_cons in Hj as [->|Hj]; [congruence|].
      destruct IH as (j' & l1 & l2 & -> & Hid' & Hl1 & ->); [eauto|].
      exists j', (d :: l1), l2. simpl. repeat split; auto.
      intros x Hx. apply elem_of_cons in Hx as [->|Hx]; auto.
Qed.

Lemma removeById_absent (id : ObjectId) (coll : list Doc) :
  (forall j, j ∈ coll -> doc_id j <> id) ->
  Mongoose.removeById id coll = (None, coll).
Proof.
  induction coll as [|d r IH]; intros H; simpl; [reflexivity|].
  destruct (Nat.eqb (doc_id d) id) eqn:E.
  - apply Nat.eqb_eq in E. exfalso. apply (H d); [left|exact E].
  - rewrite IH; [reflexivity|]. intros j Hj. apply H. right. exact Hj.
Qed.

(** C2: a Job delete is refused, naming a student as the blocker and
    leaving the store as it was, when some Student's jobHistory holds
    the identifier; when no Student holds it, the stored Job with that
    identifier is removed and the handler redirects to the job list. *)
Theorem job_delete_guard (id : ObjectId) (st : Store) :
  ((exists s, s ∈ students st /\ id ∈ jobHistory s) ->
   jobController.delete (Some (VId id)) st =
     ([Sent (Render "Could not delete job because a student is referencing it.")], st))
  /\
  ((forall s, s ∈ students st -> id ∉ jobHistory s) ->
   (exists j, j ∈ jobs st /\ doc_id j = id) ->
   exists j l1 l2,
     jobs st = (l1 ++ j :: l2)%list /\ doc_id j = id /\
     (forall x, x ∈ l1 -> doc_id x <> id) /\
     jobController.delete (Some (VId id)) st =
       ([Sent (Redirect "/job")], setJobs (l1 ++ l2)%list st)).
Proof.
  split.
  - intros [s [Hs Hid]]. unfold jobController.delete.
    unfold jobController.studentsWithJob.
    rewrite (length_pos_filter _ _ s Hs); [reflexivity|].
    apply existsb_nat_elem. exact Hid.
  - intros Hno Hj. unfold jobController.delete.
    assert (E : jobController.studentsWithJob id st = []).
    { apply filter_nil_iff. intros s Hs.
      destruct (existsb (Nat.eqb id) (jobHistory s)) eqn:Ex; [|reflexivity].
      apply existsb_nat_elem in Ex. exfalso. exact (Hno s Hs Ex). }
    rewrite E. simpl.
    destruct (removeById_found id (jobs st) Hj) as (j & l1 & l2 & H1 & H2 & H3 & H4).
    exists j, l1, l2. rewrite H4. auto.
Qed.

Lemma job_delete_guard_witness :
  jobController.delete (Some (VId 10%nat)) assigned =
    ([Sent (Render "Could not delete job because a student is referencing it.")], assigned)
  /\
  exists j l1 l2,
    jobs unassigned = (l1 ++ j :: l2)%list /\ doc_id j = 10%nat /\
    (forall x, x ∈ l1 -> doc_id x <> 10%nat) /\
    jobController.delete (Some (VId 10%nat)) unassigned =
      ([Sent (Redirect "/job")], setJobs (l1 ++ l2)%list unassigned).
Proof.
  split.
  - apply (proj1 (job_delete_guard 10%nat assigned)).
    exists (mkStudent 3%nat "jdoe" [10%nat] [] []). split.
    + simpl. left.
    + simpl. left.
  - apply (proj2 (job_delete_guard 10%nat unassigned)).
    + intros s Hs. simpl in Hs. apply list_elem_of_singleton in Hs. subst s.
      simpl. intros H. inversion H.
    + exists ta10. split; [simpl; left|reflexivity].
Defined.

Lemma find_jobs_by_course (id : Value) (st : Store) :
  Mongoose.find jobSchema (jobs st) {[ "course" := id ]} =
  match Mongoose.castValue SObjectId id with
  | Some v =>
      Resolve (List.filter
                 (fun d => bool_decide (fields d !! "course" = Some v))
                 (jobs st))
  | None => Reject "CastError"
  end.
Proof.
  unfold Mongoose.find, Mongoose.castFilter.
  rewrite map_to_list_singleton.
  destruct id as [s|n|i]; try reflexivity.
  simpl. f_equal. apply filter_ext. intros d.
  apply andb_true_r.
Qed.

(** The [courseHistory] query finds nobody: the uncast text of the
    request equals no stored ObjectId. *)
Lemma studentsWithCourse_nil (id : Value) (st : Store) :
  courseController.studentsWithCourse id st = [].
Proof.
  unfold courseController.studentsWithCourse.
  apply filter_nil_iff. intros s _.
  induction (courseHistory s) as [|e l IH]; [reflexivity|].
  simpl. rewrite IH, orb_false_r.
  apply bool_decide_eq_false. destruct id; discriminate.
Qed.

(** The course guard as the handler runs it: the [courseHistory] query
    blocks nothing, whatever the students hold; a job whose course field
    holds the identifier blocks the delete with the job message;
    otherwise the stored course is removed. *)
Lemma course_delete_guard (id : ObjectId) (st : Store) :
  fst (courseController.delete (Some (VId id)) st) <>
    [Sent (Render "Could not delete course because student is referencing it.")]
  /\
  ((exists j, j ∈ jobs st /\ fields j !! "course" = Some (VId id)) ->
   courseController.delete (Some (VId id)) st =
     ([Sent (Render "Could not delete course because job is referencing it.")], st))
  /\
  ((forall j, j ∈ jobs st -> fields j !! "course" <> Some (VId id)) ->
   (exists c, c ∈ courses st /\ doc_id c = id) ->
   exists c l1 l2,
     courses st = (l1 ++ c :: l2)%list /\ doc_id c = id /\
     (forall x, x ∈ l1 -> doc_id x <> id) /\
     courseController.delete (Some (VId id)) st =
       ([Sent (Redirect "/course")], setCourses (l1 ++ l2)%list st)).
Proof.
  unfold courseController.delete.
  rewrite studentsWithCourse_nil. change (0 <? length [])%nat with false.
  cbv beta iota. rewrite find_jobs_by_course. simpl Mongoose.castValue.
  cbv beta iota.
  split; [|split].
  - destruct (0 <? length _)%nat; [discriminate|].
    destruct (Mongoose.removeById id (courses st)) as [[c|] cs]; discriminate.
  - intros [j [Hj Hc]].
    rewrite (length_pos_filter _ _ j Hj); [reflexivity|].
    apply bool_decide_eq_true. exact Hc.
  - intros Hjobs Hc.
    assert (E : List.filter
                  (fun d => bool_decide (fields d !! "course" = Some (VId id)))
                  (jobs st) = []).
    { apply filter_nil_iff. intros j Hj.
      apply bool_decide_eq_false. exact (Hjobs j Hj). }
    rewrite E. change (0 <? length [])%nat with false. cbv beta iota.
    destruct (removeById_found id (courses st) Hc)
      as (c & l1 & l2 & H1 & H2 & H3 & H4).
    exists c, l1, l2. rewrite H4. auto.
Qed.

(** The student message is never sent, whatever the request and the
    store: the first check is dead. *)
Lemma course_delete_never_blames_student (id : option Value) (st : Store) :
  fst (courseController.delete id st) <>
    [Sent (Render "Could not delete course because student is referencing it.")].
Proof.
  unfold courseController.delete.
  destruct id as [id|]; [|discriminate].
  rewrite studentsWithCourse_nil.
  change (0 <? length [])%nat with false. cbv beta iota.
  destruct (Mongoose.find jobSchema (jobs st) {[ "course" := id ]}) as [r|e];
    [|discriminate].
  destruct (0 <? length r)%nat; [discriminate|].
  destruct id as [x|n|i]; try discriminate.
  destruct (Mongoose.removeById i (courses st)) as [[c|] cs]; discriminate.
Qed.

(** C1 (the student check): the guard queries [courseHistory] only.  A
    student whose grades list references the course through a Grade
    does not block the delete: the course is removed. *)
Theorem course_delete_ignores_grades :
  (exists s g, s ∈ students graded /\ g ∈ gradeDocs graded /\
               grade_id g ∈ grades s /\ grade_course g = 30%nat) /\
  courseController.delete (Some (VId 30%nat)) graded =
    ([Sent (Redirect "/course")], setCourses [] graded).
Proof.
  split.
  - exists (mkStudent 3%nat "jdoe" [] [20%nat] []), (mkGrade 20%nat "P" 30%nat).
    simpl. repeat split; left.
  - vm_compute. reflexivity.
Qed.

(** ** Which sheet rows the imports visit *)

Lemma shift_shift_lookup (data : Sheet.Data) (i : nat) :
  Sheet.shift (Sheet.shift data) !! i = data !! S (S i).
Proof.
  destruct data as [|x [|y r]]; reflexivity.
Qed.

Lemma elements_elem (data : Sheet.Data) (i : nat) (o : Obj) :
  data !! i = Some (Some o) -> o ∈ Sheet.elements data.
Proof.
  intros H. unfold Sheet.elements. apply list_elem_of_omap.
  exists (Some o). split; [|reflexivity].
  apply list_elem_of_lookup. exists i. exact H.
Qed.

(** The array is indexed by the sheet's own (1-based) row numbers, so
    the two [shift]s drop slot 0 and sheet row 1: whatever sheet row 2
    holds is visited by [forEach]. *)
Lemma sheet_row_2_visited (data : Sheet.Data) (o : Obj) :
  data !! 2%nat = Some (Some o) ->
  o ∈ Sheet.elements (Sheet.shift (Sheet.shift data)).
Proof.
  intros H. apply (elements_elem _ 0%nat).
  rewrite shift_shift_lookup. exact H.
Qed.

(** C8 (as stated, refuted): sheet row 2 is processed as a data row.  A
    job sheet whose row 1 is the header and whose row 2 holds a job row
    gets a Job inserted from row 2, linked to the student named there; a
    course sheet with an instruction in row 2 gets an error rendered for
    that row. *)
Theorem import_visits_sheet_row_2 :
  (let st' := snd (jobController.upload row2JobSheet campus) in
   jobs campus = [] /\
   map (fun d => (doc_id d, map_to_list (fields d))) (jobs st') =
     [(10%nat, [("supervisor", VId 1%nat); ("semester", VId 2%nat);
                ("position", VStr "TA")])] /\
   map jobHistory (students st') = [[10%nat]]) /\
  fst (courseController.upload row2CourseSheet campus) =
    [Sent (Render "undefined did not save because it is missing a field.");
     Sent (Redirect "/course/upload")].
Proof.
  vm_compute. repeat split; reflexivity.
Qed.

(** *** Sheet row 1 is dropped *)

Lemma shift_shift_drop (data : Sheet.Data) :
  Sheet.shift (Sheet.shift data) = drop 2 data.
Proof. destruct data as [|x [|y r]]; reflexivity. Qed.

Lemma drop2_setAt_low (i : nat) (o : Obj) (data : Sheet.Data) :
  (i < 2)%nat -> drop 2 (Sheet.setAt i o data) = drop 2 data.
Proof.
  intros Hi. destruct i as [|[|i]]; [| |lia];
    destruct data as [|x [|y r]]; reflexivity.
Qed.

Lemma drop2_setAt_high (i : nat) (o : Obj) (data : Sheet.Data) :
  drop 2 (Sheet.setAt (S (S i)) o data) = Sheet.setAt i o (drop 2 data).
Proof. destruct data as [|x [|y r]]; reflexivity. Qed.

Lemma getAt_drop2 (i : nat) (data : Sheet.Data) :
  Sheet.getAt (S (S i)) data = Sheet.getAt i (drop 2 data).
Proof. destruct data as [|x [|y r]]; reflexivity. Qed.

(** What a cell does to the rows from 2 on depends on those rows only. *)
Lemma addCell_drop2 (headers : gmap string string) (d d' : Sheet.Data)
    (cell : string * Value) :
  drop 2 d = drop 2 d' ->
  drop 2 (Sheet.addCell headers d cell) = drop 2 (Sheet.addCell headers d' cell).
Proof.
  intros H. unfold Sheet.addCell.
  destruct (Sheet.isBang (fst cell)); [exact H|].
  destruct (JS.parseInt (JS.substring1 (fst cell))) as [row|]; [|exact H].
  destruct (0 <=? row); [|exact H].
  destruct (Z.to_nat row) as [|[|i]].
  - rewrite !drop2_setAt_low by lia. exact H.
  - rewrite !drop2_setAt_low by lia. exact H.
  - rewrite !drop2_setAt_high, !getAt_drop2, H. reflexivity.
Qed.

(** A cell of sheet row 1 leaves the rows from 2 on as they are. *)
Lemma addCell_row_1 (headers : gmap string string) (d : Sheet.Data)
    (cell : string * Value) :
  inRow 1 cell = true -> drop 2 (Sheet.addCell headers d cell) = drop 2 d.
Proof.
  unfold inRow, Sheet.addCell. intros H.
  apply andb_true_iff in H. destruct H as [Hb Hr].
  apply negb_true_iff in Hb. apply bool_decide_eq_true in Hr.
  rewrite Hb, Hr. change (0 <=? 1) with true. cbv beta iota.
  apply drop2_setAt_low. simpl. lia.
Qed.

Lemma readData_withoutRow_1 (headers : gmap string string) (ws : Sheet.Worksheet) :
  forall d d', drop 2 d = drop 2 d' ->
    drop 2 (fold_left (Sheet.addCell headers) (withoutRow 1 ws) d) =
    drop 2 (fold_left (Sheet.addCell headers) ws d').
Proof.
  induction ws as [|cell ws IH]; intros d d' H; [exact H|].
  unfold withoutRow. cbn [List.filter fold_left].
  destruct (inRow 1 cell) eqn:E; cbn [negb fold_left].
  - apply IH. rewrite addCell_row_1 by exact E. exact H.
  - apply IH. apply addCell_drop2. exact H.
Qed.

Lemma rows_withoutRow_1 (headers : gmap string string) (ws : Sheet.Worksheet) :
  Sheet.shift (Sheet.shift (Sheet.readData headers (withoutRow 1 ws))) =
  Sheet.shift (Sheet.shift (Sheet.readData headers ws)).
Proof.
  rewrite !shift_shift_drop. apply readData_withoutRow_1. reflexivity.
Qed.

(** C8 (amended): for every imported sheet, sheet row 1 is discarded and
    never processed as a data row.  Both imports give the same responses
    and the same store as on the sheet with the cells of row 1 taken out,
    so no lookup, error or insert comes from a cell of row 1; the rows
    [forEach] visits are exactly the filled rows from sheet row 2 on, and
    a filled sheet row 2 is the first one visited. *)
Theorem import_discards_sheet_row_1 (ws : Sheet.Worksheet) (st : Store) :
  jobController.upload ws st = jobController.upload (withoutRow 1 ws) st /\
  courseController.upload ws st = courseController.upload (withoutRow 1 ws) st /\
  (forall headers o,
     o ∈ Sheet.elements (Sheet.shift (Sheet.shift (Sheet.readData headers ws))) <->
     exists r, (2 <= r)%nat /\ Sheet.readData headers ws !! r = Some (Some o)) /\
  (forall headers o,
     Sheet.readData headers ws !! 2%nat = Some (Some o) ->
     head (Sheet.elements (Sheet.shift (Sheet.shift (Sheet.readData headers ws)))) =
       Some o).
Proof.
  split; [|split; [|split]].
  - unfold jobController.upload. rewrite rows_withoutRow_1. reflexivity.
  - unfold courseController.upload. rewrite rows_withoutRow_1. reflexivity.
  - intros headers o. rewrite shift_shift_drop. unfold Sheet.elements.
    rewrite list_elem_of_omap. split.
    + intros [x [Hx Ho]]. simpl in Ho. subst x.
      apply list_elem_of_lookup in Hx. destruct Hx as [i Hi].
      rewrite lookup_drop in Hi. exists (2 + i)%nat. split; [lia|exact Hi].
    + intros [r [Hr Ho]]. exists (Some o). split; [|reflexivity].
      apply list_elem_of_lookup. exists (r - 2)%nat.
      rewrite lookup_drop. replace (2 + (r - 2))%nat with r by lia. exact Ho.
  - intros headers o H.
    destruct (Sheet.readData headers ws) as [|x [|y [|z r]]]; try discriminate.
    simpl in H. injection H as ->. reflexivity.
Qed.

Lemma import_discards_sheet_row_1_witness :
  withoutRow 1 row2JobSheet =
    [ ("!ref", VStr "A1:D2"); ("A2", VStr "jdoe"); ("B2", VStr "ta");
      ("C2", VStr "Smith, Jane"); ("D2", VStr "FA 2024") ] /\
  jobController.upload row2JobSheet campus =
    jobController.upload (withoutRow 1 row2JobSheet) campus /\
  courseController.upload row2CourseSheet campus =
    courseController.upload (withoutRow 1 row2CourseSheet) campus /\
  Sheet.readData jobController.headers row2JobSheet !! 2%nat = Some (Some taRow) /\
  taRow ∈ Sheet.elements (Sheet.shift (Sheet.shift
             (Sheet.readData jobController.headers row2JobSheet))) /\
  head (Sheet.elements (Sheet.shift (Sheet.shift
          (Sheet.readData jobController.headers row2JobSheet)))) = Some taRow.
Proof.
  split; [vm_compute; reflexivity|].
  split; [exact (proj1 (import_discards_sheet_row_1 row2JobSheet campus))|].
  split; [exact (proj1 (proj2 (import_discards_sheet_row_1 row2CourseSheet campus)))|].
  split; [vm_compute; reflexivity|].
  split.
  { apply (proj1 (proj2 (proj2 (import_discards_sheet_row_1 row2JobSheet campus)))).
    exists 2%nat. split; [lia|vm_compute; reflexivity]. }
  apply (proj2 (proj2 (proj2 (import_discards_sheet_row_1 row2JobSheet campus)))).
  vm_compute. reflexivity.
Defined.

(** ** The course import scenario *)

(** C3 (the scenario): with Faculty Smith/Jane and Semester 2024/FA
    stored and no Course, the sheet of the scenario creates no Course:
    its row lacks three declared fields; and the row completed with
    them creates none either, because the course import splits the
    semester text on commas, so "FA 2024" gives the season "FA 2024"
    and no year. *)
Theorem course_import_scenario_creates_nothing :
  JS.splitComma "FA 2024" = ["FA 2024"] /\
  parseYear (JS.splitComma "FA 2024") = None /\
  courseController.upload claimSheet campus =
    ([Sent (Render "Foundations did not save because it is missing a field.");
      Sent (Redirect "/course/upload")], campus) /\
  snd (courseController.upload (fullSheet "FA 2024") campus) = campus /\
  courses campus = [].
Proof.
  vm_compute. repeat split; reflexivity.
Qed.

(** The same completed row with the semester written "FA, 2024" is
    imported: one Course, category "Systems", faculty and semester
    resolved. *)
Example course_import_comma_semester :
  let r := courseController.upload (fullSheet "FA, 2024") campus in
  fst r = [Sent (Redirect "/course/upload")] /\
  map (fun d => (fields d !! "category", fields d !! "faculty",
                 fields d !! "semester")) (courses (snd r)) =
    [(Some (VStr "Systems"), Some (VId 1%nat), Some (VId 2%nat))].
Proof.
  vm_compute. split; reflexivity.
Qed.

(** The job import splits the same text on blanks. *)
Example job_import_blank_semester :
  parseYear (JS.splitBlank "FA 2024") = Some 2024 /\
  nth 0 (JS.splitBlank "FA 2024") "" = "FA".
Proof. split; reflexivity. Qed.

(** ** Facts about the helpers of util.js and the query layer *)

Lemma isEmpty_true (v : Value) : util.isEmpty v = true <-> v = VStr "".
Proof.
  destruct v as [[|c s]|n|i]; simpl; split; intros H;
    try reflexivity; try discriminate H.
Qed.

Lemma allFieldsExist_false (input : Obj) (sch : Schema) :
  util.allFieldsExist input sch = false <->
  exists k, k ∈ map fst sch /\ missing input k.
Proof.
  unfold util.allFieldsExist, missing. induction sch as [|[k p] r IH]; simpl.
  - split; [discriminate|]. intros [k [Hk _]]. inversion Hk.
  - rewrite andb_false_iff, IH. split.
    + intros [H|[k' [Hk' Hm]]].
      * exists k. split; [left|].
        destruct (input !! k) as [v|]; [|left; reflexivity].
        right. apply negb_false_iff, isEmpty_true in H. congruence.
      * exists k'. split; [right; exact Hk'|exact Hm].
    + intros [k' [Hk' Hm]]. apply elem_of_cons in Hk' as [->|Hk'].
      * left. destruct Hm as [->| ->]; reflexivity.
      * right. exists k'. split; assumption.
Qed.

Lemma project_lookup (input : Obj) (sch : Schema) (k : string) :
  util.project input sch !! k =
  match schemaPath sch k, input !! k with
  | Some p, Some v =>
      if util.isEmpty v then None else Some (util.coerce (ptype p) v)
  | _, _ => None
  end.
Proof.
  induction sch as [|[k' p] r IH]; simpl; [apply lookup_empty|].
  destruct (String.eqb k' k) eqn:E.
  - apply String.eqb_eq in E. subst k'.
    destruct (input !! k) as [v|] eqn:Ev.
    + destruct (util.isEmpty v) eqn:Em.
      * rewrite IH. destruct (schemaPath r k); reflexivity.
      * apply lookup_insert_eq.
    + rewrite IH. destruct (schemaPath r k); reflexivity.
  - apply String.eqb_neq in E.
    destruct (input !! k') as [v'|]; [|exact IH].
    destruct (util.isEmpty v'); [exact IH|].
    rewrite lookup_insert_ne; [exact IH|exact E].
Qed.

Lemma validateModelData_lookup (input : Obj) (sch : Schema) (k : string) :
  k <> "_id" ->
  util.validateModelData input sch !! k = util.project input sch !! k.
Proof.
  intros Hk. unfold util.validateModelData.
  destruct (input !! "_id"); [|reflexivity].
  apply lookup_insert_ne. congruence.
Qed.

Lemma validateModelData_missing (input : Obj) (sch : Schema) (k : string) :
  k <> "_id" -> missing input k ->
  util.validateModelData input sch !! k = None.
Proof.
  intros Hk Hm. rewrite validateModelData_lookup by exact Hk.
  rewrite project_lookup.
  destruct (schemaPath sch k); [|reflexivity].
  destruct Hm as [->| ->]; reflexivity.
Qed.

Lemma holds_docField (d : Doc) (k : string) (v : Value) :
  Mongoose.holds d (k, v) = true <-> docField d k = Some v.
Proof.
  unfold Mongoose.holds, docField. simpl.
  destruct (String.eqb k "_id"); rewrite bool_decide_eq_true;
    [split; congruence|reflexivity].
Qed.

Section QueryLayer.

Variable sch : Schema.

Lemma castEntries_Some (l conds : list (string * Value)) :
  Mongoose.castEntries sch l = Some conds ->
  forall d, Mongoose.matches conds d = true <->
            (forall k v, (k, v) ∈ l ->
               exists v', Mongoose.castEntry sch k v = Some v' /\
                          docField d k = Some v').
Proof.
  revert conds. induction l as [|[k v] r IH]; simpl; intros conds H d.
  - injection H as <-. simpl. split; [|reflexivity].
    intros _ k v Hk. inversion Hk.
  - destruct (Mongoose.castEntry sch k v) as [v'|] eqn:Ec; [|discriminate].
    destruct (Mongoose.castEntries sch r) as [r'|] eqn:Er; [|discriminate].
    injection H as <-. simpl. rewrite andb_true_iff, holds_docField.
    rewrite (IH r' eq_refl d). split.
    + intros [H1 H2] k0 v0 Hk.
      apply elem_of_cons in Hk as [Hk|Hk].
      * injection Hk as -> ->. eauto.
      * apply H2. exact Hk.
    + intros H. split.
      * destruct (H k v) as [v'' [H1 H2]]; [left|]. congruence.
      * intros k0 v0 Hk. apply H. right. exact Hk.
Qed.

Lemma castEntries_None (l : list (string * Value)) :
  Mongoose.castEntries sch l = None ->
  exists k v, (k, v) ∈ l /\ Mongoose.castEntry sch k v = None.
Proof.
  induction l as [|[k v] r IH]; simpl; [discriminate|].
  destruct (Mongoose.castEntry sch k v) as [v'|] eqn:Ec.
  - destruct (Mongoose.castEntries sch r) as [r'|]; [discriminate|].
    intros _. destruct (IH eq_refl) as (k0 & v0 & H1 & H2).
    exists k0, v0. split; [right; exact H1|exact H2].
  - intros _. exists k, v. split; [left|exact Ec].
Qed.

Lemma matches_agrees (input : Obj)
    (conds : list (string * Value)) (d : Doc) :
  Mongoose.castFilter sch input = Some conds ->
  (Mongoose.matches conds d = true <-> agrees sch input d).
Proof.
  intros H. unfold Mongoose.castFilter in H.
  rewrite (castEntries_Some _ _ H d). unfold agrees.
  split; intros Ha k v Hk; apply Ha.
  - apply elem_of_map_to_list. exact Hk.
  - apply elem_of_map_to_list in Hk. exact Hk.
Qed.

Lemma agrees_castFilter (input : Obj) (d : Doc) :
  agrees sch input d -> exists conds, Mongoose.castFilter sch input = Some conds.
Proof.
  intros Ha. unfold Mongoose.castFilter.
  destruct (Mongoose.castEntries sch (map_to_list input)) as [c|] eqn:E; [eauto|].
  apply castEntries_None in E as (k & v & H1 & H2).
  apply elem_of_map_to_list in H1.
  destruct (Ha k v H1) as [v' [H3 _]]. congruence.
Qed.

(** [findOne] finds a document exactly when some stored document agrees
    with the filter. *)
Lemma findOne_agrees (coll : list Doc) (input : Obj) (d : Doc) :
  d ∈ coll -> agrees sch input d ->
  exists d', d' ∈ coll /\ agrees sch input d' /\
             Mongoose.findOne sch coll input = Resolve (Some d').
Proof.
  intros Hd Ha. destruct (agrees_castFilter _ _ Ha) as [conds Hc].
  unfold Mongoose.findOne, Mongoose.find. rewrite Hc.
  destruct (List.filter (Mongoose.matches conds) coll) as [|d' r] eqn:E.
  - exfalso. apply filter_nil_iff with (x := d) in E; [|exact Hd].
    apply (matches_agrees _ _ d Hc) in Ha. congruence.
  - assert (Hin : In d' (List.filter (Mongoose.matches conds) coll)).
    { rewrite E. left. reflexivity. }
    apply filter_In in Hin as [H1 H2].
    exists d'. split; [apply list_elem_of_In; exact H1|].
    split; [apply (matches_agrees _ _ d' Hc); exact H2|reflexivity].
Qed.

Lemma findOne_none (coll : list Doc) (input : Obj)
    (conds : list (string * Value)) :
  Mongoose.castFilter sch input = Some conds ->
  (forall d, d ∈ coll -> ~ agrees sch input d) ->
  Mongoose.findOne sch coll input = Resolve None.
Proof.
  intros Hc Hno. unfold Mongoose.findOne, Mongoose.find. rewrite Hc.
  assert (E : List.filter (Mongoose.matches conds) coll = []).
  { apply filter_nil_iff. intros d Hd.
    destruct (Mongoose.matches conds d) eqn:Em; [|reflexivity].
    apply (matches_agrees _ _ d Hc) in Em. exfalso. exact (Hno d Hd Em). }
  rewrite E. reflexivity.
Qed.

Lemma castable_castFilter (input : Obj) :
  castable sch input -> exists conds, Mongoose.castFilter sch input = Some conds.
Proof.
  intros Hc. unfold Mongoose.castFilter.
  destruct (Mongoose.castEntries sch (map_to_list input)) as [c|] eqn:E; [eauto|].
  apply castEntries_None in E as (k & v & H1 & H2).
  apply elem_of_map_to_list in H1.
  destruct (Hc k v H1) as [v' H3]. congruence.
Qed.

End QueryLayer.

(** ** Creating with a field missing *)

(** C6 (as stated, for Job): a Job create request that carries only a
    position and a supervisor, so lacks declared fields such as course,
    is accepted and a Job is stored. *)
Lemma job_post_optional_fields_counterexample :
  (exists k, k ∈ map fst jobSchema /\ missing raBody k) /\
  exists d, jobController.post raBody campus =
    ([Sent (Redirect "/job/edit/10")], bumpId (setJobs [d] campus)).
Proof.
  split.
  - exists "course". split.
    + simpl. do 3 right. left.
    + left. reflexivity.
  - eexists. vm_compute. reflexivity.
Qed.

(** C6 (amended): a Course create request in which a field declared on
    the Course schema is absent or empty makes the handler throw, and a
    Job create request in which the position or the supervisor is
    absent or empty is answered "Required parameter not found"; in both
    cases the store is left as it was. *)
Theorem create_missing_field (body : Obj) (st : Store) :
  ((exists k, k ∈ map fst courseSchema /\ missing body k) ->
   courseController.post body st =
     ([Thrown "ReferenceError: error is not defined"], st)) /\
  (missing body "position" \/ missing body "supervisor" ->
   jobController.post body st =
     ([Sent (Render "Required parameter not found")], st)).
Proof.
  split.
  - intros H. apply allFieldsExist_false in H.
    unfold courseController.post. rewrite H. reflexivity.
  - intros H. unfold jobController.post.
    destruct H as [H|H].
    + rewrite (validateModelData_missing body jobSchema "position");
        [reflexivity|discriminate|exact H].
    + rewrite (validateModelData_missing body jobSchema "supervisor");
        [|discriminate|exact H].
      destruct (util.validateModelData body jobSchema !! "position"); reflexivity.
Qed.

Lemma create_missing_field_witness :
  courseController.post noTopicBody campus =
    ([Thrown "ReferenceError: error is not defined"], campus) /\
  jobController.post noSupervisorBody campus =
    ([Sent (Render "Required parameter not found")], campus).
Proof.
  split.
  - apply (proj1 (create_missing_field noTopicBody campus)).
    exists "topic". split.
    + simpl. do 5 right. left.
    + right. reflexivity.
  - apply (proj2 (create_missing_field noSupervisorBody campus)).
    right. left. reflexivity.
Defined.

(** ** The department code *)

(** C7 (as stated, for create): a Course create request whose
    department is "CS" and whose other fields are missing is not
    answered with the four-letter message; the handler throws for the
    missing fields first. *)
Lemma course_post_short_department_counterexample :
  csOnlyBody !! "department" = Some (VStr "CS") /\
  String.length "CS" <> 4%nat /\
  courseController.post csOnlyBody campus =
    ([Thrown "ReferenceError: error is not defined"], campus) /\
  fst (courseController.post csOnlyBody campus) <>
    [Sent (Render "Please input four letter department code")].
Proof.
  split; [reflexivity|]. split; [discriminate|].
  split; [vm_compute; reflexivity|].
  vm_compute. discriminate.
Qed.

(** C7 (amended): a Course create request whose department text has a
    length other than 4 never inserts or changes a Course; it is
    answered with the four-letter message when it carries every declared
    field, its values can be read at their types and no stored Course
    agrees with it. *)
Theorem course_post_department_guard (body : Obj) (st : Store) (s : string) :
  body !! "department" = Some (VStr s) ->
  String.length s <> 4%nat ->
  snd (courseController.post body st) = st /\
  (util.allFieldsExist body courseSchema = true ->
   castable courseSchema body ->
   (forall d, d ∈ courses st -> ~ agrees courseSchema body d) ->
   courseController.post body st =
     ([Sent (Render "Please input four letter department code")], st)).
Proof.
  intros Hd Hl.
  assert (Hn : lengthNot4 (body !! "department") = true).
  { rewrite Hd. simpl. apply negb_true_iff, Nat.eqb_neq. exact Hl. }
  unfold courseController.post. split.
  - destruct (util.allFieldsExist body courseSchema); [|reflexivity].
    destruct (Mongoose.findOne courseSchema (courses st) body) as [[d|]|e];
      try reflexivity.
    rewrite Hn. reflexivity.
  - intros Ha Hc Hno. rewrite Ha.
    destruct (castable_castFilter _ _ Hc) as [conds Hconds].
    rewrite (findOne_none _ _ _ conds Hconds Hno), Hn. reflexivity.
Qed.

Lemma castable_check (sch : Schema) (input : Obj) :
  forallb (fun kv => bool_decide (is_Some (Mongoose.castEntry sch (fst kv) (snd kv))))
          (map_to_list input) = true ->
  castable sch input.
Proof.
  intros H k v Hk. rewrite forallb_forall in H.
  apply elem_of_map_to_list, list_elem_of_In in Hk.
  apply H in Hk. apply bool_decide_eq_true in Hk. exact Hk.
Qed.

Lemma course_post_department_guard_witness :
  snd (courseController.post (courseBody "CS") campus) = campus /\
  courseController.post (courseBody "CS") campus =
    ([Sent (Render "Please input four letter department code")], campus).
Proof.
  assert (Hd : courseBody "CS" !! "department" = Some (VStr "CS"))
    by reflexivity.
  assert (Hl : String.length "CS" <> 4%nat) by (simpl; lia).
  destruct (course_post_department_guard (courseBody "CS") campus "CS" Hd Hl)
    as [H1 H2].
  split; [exact H1|].
  apply H2.
  - vm_compute. reflexivity.
  - apply castable_check. vm_compute. reflexivity.
  - intros d Hd'. simpl in Hd'. inversion Hd'.
Defined.

Example course_post_short_department_duplicate :
  courseController.post (courseBody "CS") catalog =
    ([Sent (Render "This course already exists.")], catalog).
Proof. vm_compute. reflexivity. Qed.

(** [put] renders the four-letter message and then updates all the
    same: course 30 ends up with the department "MATHS". *)
Example course_put_long_department_updates :
  let r := courseController.put (<["_id" := VId 30%nat]> (courseBody "MATHS")) catalog in
  fst r = [Sent (Render "Please input four letter department code");
           Sent (Redirect "/course/edit/30")] /\
  map (fun d => (doc_id d, fields d !! "department")) (courses (snd r)) =
    [(30%nat, Some (VStr "MATHS"))].
Proof. vm_compute. split; reflexivity. Qed.

(** ** Creating a duplicate *)



Lemma agreesb_agrees (sch : Schema) (input : Obj) (d : Doc) :
  agreesb sch input d = true <-> agrees sch input d.
Proof.
  unfold agreesb. split.
  - destruct (Mongoose.castFilter sch input) as [conds|] eqn:E; [|discriminate].
    apply matches_agrees. exact E.
  - intros Ha. destruct (agrees_castFilter _ _ _ Ha) as [conds E].
    rewrite E. apply (matches_agrees _ _ _ _ E). exact Ha.
Qed.



(** ** The job import, row by row *)

Lemma castValue_coerce (t : SchemaType) (v : Value) :
  Mongoose.castValue t (util.coerce t v) = Mongoose.castValue t v.
Proof.
  destruct t, v as [s|n|i]; try reflexivity.
  simpl. destruct (Mongoose.numberOfText s) eqn:E; simpl; rewrite ?E; reflexivity.
Qed.

Lemma construct_lookup (sch : Schema) (obj o : Obj) (k : string) :
  Mongoose.construct sch obj = Some o ->
  o !! k = match schemaPath sch k with
           | Some p => obj !! k ≫= Mongoose.castValue (ptype p)
           | None => None
           end.
Proof.
  revert o. induction sch as [|[k' p] r IH]; simpl; intros o H.
  - injection H as <-. apply lookup_empty.
  - destruct (obj !! k') as [v|] eqn:Ev.
    + destruct (Mongoose.castValue (ptype p) v) as [v'|] eqn:Ec; [|discriminate].
      destruct (Mongoose.construct r obj) as [o'|]; [|discriminate].
      injection H as <-.
      destruct (String.eqb k' k) eqn:E.
      * apply String.eqb_eq in E. subst k'.
        rewrite lookup_insert_eq, Ev. simpl. symmetry. exact Ec.
      * apply String.eqb_neq in E. rewrite lookup_insert_ne by exact E.
        apply IH. reflexivity.
    + rewrite (IH o H).
      destruct (String.eqb k' k) eqn:E; [|reflexivity].
      apply String.eqb_eq in E. subst k'. rewrite Ev.
      destruct (schemaPath r k); reflexivity.
Qed.


Lemma resolvedRow_course (element : Obj) p f s :
  resolvedRow element p f s !! "course" = element !! "course".
Proof.
  unfold resolvedRow. rewrite !lookup_insert_ne by discriminate. reflexivity.
Qed.

(** What [uploadRow] does once the three required cells are text and
    the faculty and semester lookups have succeeded. *)
Lemma uploadRow_resolved (element : Obj) (st : Store)
    (p sup sem : string) (f : Faculty) (s : Semester) :
  element !! "position" = Some (VStr p) ->
  element !! "supervisor" = Some (VStr sup) ->
  element !! "semester" = Some (VStr sem) ->
  findFaculty (nth 0 (JS.splitComma sup) "") (JS.splitComma sup !! 1%nat) st
    = Some f ->
  findSemester (JS.toUpperCase (nth 0 (JS.splitBlank sem) ""))
               (parseYear (JS.splitBlank sem)) st = Resolve (Some s) ->
  jobController.uploadRow element st =
  Sheet.Chain
    (let row := resolvedRow element p f s in
     match element !! "course" with
     | Some _ => ([Unhandled "ReferenceError: reg is not defined"], st)
     | None =>
         match Mongoose.findOne jobSchema (jobs st)
                 (util.validateModelData row jobSchema) with
         | Resolve None =>
             match saveJob row st with
             | Resolve (result, st') =>
                 jobController.pushed row (doc_id result) st'
             | Reject _ =>
                 ([Sent (Render (jobController.label row ++
                     " did not save because something is wrong with it"))], st)
             end
         | Resolve (Some result) => jobController.pushed row (doc_id result) st
         | Reject e => ([Unhandled e], st)
         end
     end).
Proof.
  intros Hp Hsup Hsem Hf Hs. unfold jobController.uploadRow.
  rewrite Hp, Hsup, Hsem, Hf, Hs.
  fold (resolvedRow element p f s). rewrite resolvedRow_course.
  reflexivity.
Qed.



(** The row "ta" is stored as "TA", and is a duplicate of a stored "TA"
    job. *)
Example job_import_ta :
  (let st' := snd (jobController.upload jobSheet campus) in
   map (fun d => fields d !! "position") (jobs st') = [Some (VStr "TA")]) /\
  (let st' := snd (jobController.upload jobSheet hired) in
   jobs st' = [ta2024] /\ map jobHistory (students st') = [[10%nat]]).
Proof. vm_compute. repeat split; reflexivity. Qed.

(** ** Importing a job row twice *)

Lemma findOne_agreesb (sch : Schema) (coll : list Doc) (input : Obj) :
  castable sch input ->
  Mongoose.findOne sch coll input =
  Resolve (head (List.filter (agreesb sch input) coll)).
Proof.
  intros Hc. destruct (castable_castFilter _ _ Hc) as [conds E].
  unfold Mongoose.findOne, Mongoose.find. rewrite E.
  do 2 f_equal. apply filter_ext. intros d. unfold agreesb. rewrite E.
  reflexivity.
Qed.

Lemma construct_casts (sch : Schema) (obj o : Obj) (k : string) (p : Path)
    (v : Value) :
  Mongoose.construct sch obj = Some o ->
  schemaPath sch k = Some p -> obj !! k = Some v ->
  is_Some (Mongoose.castValue (ptype p) v).
Proof.
  revert o. induction sch as [|[k' p'] r IH]; simpl; intros o H Hp Hv.
  - discriminate.
  - destruct (String.eqb k' k) eqn:E.
    + apply String.eqb_eq in E. subst k'. injection Hp as ->.
      rewrite Hv in H.
      destruct (Mongoose.castValue (ptype p) v); [eauto|discriminate].
    + destruct (obj !! k').
      * destruct (Mongoose.castValue (ptype p') v0); [|discriminate].
        destruct (Mongoose.construct r obj) as [o'|]; [|discriminate].
        apply (IH o'); auto.
      * apply (IH o); auto.
Qed.

Lemma validateModelData_id (input : Obj) (sch : Schema) :
  schemaPath sch "_id" = None ->
  util.validateModelData input sch !! "_id" = input !! "_id".
Proof.
  intros Hs. unfold util.validateModelData.
  destruct (input !! "_id") as [v|] eqn:E.
  - apply lookup_insert_eq.
  - rewrite project_lookup, Hs. reflexivity.
Qed.

(** A record that constructs into a document gives a filter that can be
    cast, and the document agrees with that filter. *)
Lemma constructed_agrees (sch : Schema) (obj o : Obj) (n : ObjectId) :
  schemaPath sch "_id" = None -> obj !! "_id" = None ->
  Mongoose.construct sch obj = Some o ->
  agrees sch (util.validateModelData obj sch) (mkDoc n o).
Proof.
  intros Hs Hid Hc k v Hk.
  destruct (String.eqb k "_id") eqn:E.
  - apply String.eqb_eq in E. subst k.
    rewrite validateModelData_id in Hk by exact Hs. congruence.
  - assert (Hne : k <> "_id") by (apply String.eqb_neq; exact E).
    rewrite validateModelData_lookup, project_lookup in Hk by exact Hne.
    destruct (schemaPath sch k) as [p|] eqn:Hp; [|discriminate].
    destruct (obj !! k) as [v0|] eqn:Hv; [|discriminate].
    destruct (util.isEmpty v0); [discriminate|]. injection Hk as <-.
    destruct (construct_casts _ _ _ _ _ _ Hc Hp Hv) as [v' Hv'].
    exists v'. unfold Mongoose.castEntry, docField. rewrite Hp, E.
    rewrite castValue_coerce. split; [exact Hv'|]. simpl.
    rewrite (construct_lookup _ _ _ k Hc), Hp, Hv. exact Hv'.
Qed.

Lemma constructed_castable (sch : Schema) (obj o : Obj) :
  schemaPath sch "_id" = None -> obj !! "_id" = None ->
  Mongoose.construct sch obj = Some o ->
  castable sch (util.validateModelData obj sch).
Proof.
  intros Hs Hid Hc k v Hk.
  destruct (constructed_agrees sch obj o 0%nat Hs Hid Hc k v Hk) as [v' [H _]].
  eauto.
Qed.

Lemma prepare_construct (sch : Schema) (obj o : Obj) :
  Mongoose.prepare sch obj = Resolve o -> Mongoose.construct sch obj = Some o.
Proof.
  unfold Mongoose.prepare.
  destruct (Mongoose.construct sch obj) as [o'|]; [|discriminate].
  destruct (Mongoose.validate sch o'); [|discriminate].
  intros H. injection H as ->. reflexivity.
Qed.

(** *** [$addToSet] on the job history *)

Lemma addToSet_onyen (id : ObjectId) (s : Student) :
  onyen (jobController.addToSet id s) = onyen s.
Proof.
  unfold jobController.addToSet.
  destruct (existsb (Nat.eqb id) (jobHistory s)); reflexivity.
Qed.

Lemma addToSet_elem (id : ObjectId) (s : Student) :
  id ∈ jobHistory (jobController.addToSet id s).
Proof.
  unfold jobController.addToSet.
  destruct (existsb (Nat.eqb id) (jobHistory s)) eqn:E.
  - apply existsb_nat_elem. exact E.
  - simpl. apply elem_of_app. right. left.
Qed.

Lemma addToSet_idem (id : ObjectId) (s : Student) :
  jobController.addToSet id (jobController.addToSet id s) =
  jobController.addToSet id s.
Proof.
  pose proof (addToSet_elem id s) as H. apply existsb_nat_elem in H.
  unfold jobController.addToSet at 1. rewrite H. reflexivity.
Qed.

Lemma addToSet_NoDup (id : ObjectId) (s : Student) :
  NoDup (jobHistory s) -> NoDup (jobHistory (jobController.addToSet id s)).
Proof.
  intros Hn. unfold jobController.addToSet.
  destruct (existsb (Nat.eqb id) (jobHistory s)) eqn:E; [exact Hn|].
  simpl. apply NoDup_app. split; [exact Hn|]. split.
  - intros x Hx Hx'. apply list_elem_of_singleton in Hx'. subst x.
    apply existsb_nat_elem in Hx. congruence.
  - apply NoDup_singleton.
Qed.

Lemma count_occ_NoDup_elem (l : list nat) (x : nat) :
  NoDup l -> x ∈ l -> count_occ Nat.eq_dec l x = 1%nat.
Proof.
  intros Hn Hx. apply NoDup_ListNoDup in Hn. apply list_elem_of_In in Hx.
  pose proof (proj1 (NoDup_count_occ Nat.eq_dec l) Hn x) as Hle.
  apply (count_occ_In Nat.eq_dec) in Hx. lia.
Qed.

Lemma head_updateFirst (o : string) (upd : Student -> Student)
    (ss : list Student) :
  (forall s, onyen (upd s) = onyen s) ->
  head (List.filter (fun s => String.eqb (onyen s) o)
                    (jobController.updateFirst o upd ss)) =
  upd <$> head (List.filter (fun s => String.eqb (onyen s) o) ss).
Proof.
  intros Hu. induction ss as [|s r IH]; simpl; [reflexivity|].
  destruct (String.eqb (onyen s) o) eqn:E; simpl.
  - rewrite Hu, E. reflexivity.
  - rewrite E. exact IH.
Qed.

Lemma findFaculty_same (a : string) (b : option string) (st st' : Store) :
  faculties st' = faculties st -> findFaculty a b st' = findFaculty a b st.
Proof. intros H. unfold findFaculty. rewrite H. reflexivity. Qed.

Lemma findSemester_same (a : string) (y : option Z) (st st' : Store) :
  semesters st' = semesters st -> findSemester a y st' = findSemester a y st.
Proof. intros H. unfold findSemester. rewrite H. reflexivity. Qed.

(** One import of a row that has no course cell, whose lookups succeed
    and whose values are valid: the job found, or else the job created,
    is added to the student's history. *)
Lemma import_step (element : Obj) (st : Store) (p sup sem o : string)
    (f : Faculty) (s : Semester) (stu : Student) (fields' : Obj) :
  element !! "position" = Some (VStr p) ->
  element !! "supervisor" = Some (VStr sup) ->
  element !! "semester" = Some (VStr sem) ->
  element !! "course" = None ->
  element !! "_id" = None ->
  findFaculty (nth 0 (JS.splitComma sup) "") (JS.splitComma sup !! 1%nat) st
    = Some f ->
  findSemester (JS.toUpperCase (nth 0 (JS.splitBlank sem) ""))
               (parseYear (JS.splitBlank sem)) st = Resolve (Some s) ->
  rowStudent element o st = Some stu ->
  Mongoose.prepare jobSchema (resolvedRow element p f s) = Resolve fields' ->
  let query := util.validateModelData (resolvedRow element p f s) jobSchema in
  jobController.uploadRow element st =
  Sheet.Chain
    ([],
     match head (agreeing query st) with
     | Some j =>
         setStudents
           (jobController.updateFirst o (jobController.addToSet (doc_id j))
                                      (students st)) st
     | None =>
         setStudents
           (jobController.updateFirst o (jobController.addToSet (nextId st))
                                      (students st))
           (bumpId (setJobs (jobs st ++ [mkDoc (nextId st) fields'])%list st))
     end).
Proof.
  intros Hp Hsup Hsem Hc Hid Hf Hs Hstu Hprep query.
  rewrite (uploadRow_resolved element st p sup sem f s Hp Hsup Hsem Hf Hs).
  cbv zeta. rewrite Hc.
  set (row := resolvedRow element p f s) in *.
  assert (Hrid : row !! "_id" = None).
  { unfold row, resolvedRow. rewrite !lookup_insert_ne by discriminate.
    exact Hid. }
  assert (Hcast : castable jobSchema query).
  { apply (constructed_castable jobSchema row fields'); auto.
    apply prepare_construct. exact Hprep. }
  change (util.validateModelData row jobSchema) with query.
  rewrite (findOne_agreesb _ _ _ Hcast).
  assert (Hpush : forall id st0, students st0 = students st ->
            jobController.pushed row id st0 =
            ([], setStudents
                   (jobController.updateFirst o (jobController.addToSet id)
                                              (students st)) st0)).
  { intros id st0 Hst0. unfold jobController.pushed, jobController.pushStudentJob.
    assert (Ho : row !! "onyen" = element !! "onyen").
    { unfold row, resolvedRow. rewrite !lookup_insert_ne by discriminate.
      reflexivity. }
    rewrite Ho. unfold rowStudent in Hstu.
    destruct (element !! "onyen") as [v|]; [|discriminate].
    destruct (Mongoose.castValue SString v) as [[o'|n|i]|]; try discriminate.
    destruct (String.eqb o' o) eqn:E; [|discriminate].
    apply String.eqb_eq in E. subst o'.
    rewrite Hst0, Hstu. reflexivity. }
  fold (agreeing query st).
  destruct (head (agreeing query st)) as [j|].
  - rewrite Hpush by reflexivity. reflexivity.
  - unfold saveJob. rewrite Hprep. simpl doc_id.
    rewrite Hpush by reflexivity. reflexivity.
Qed.

Lemma rowStudent_updated (element : Obj) (o : string) (st st' : Store)
    (stu : Student) (id : ObjectId) :
  rowStudent element o st = Some stu ->
  students st' =
    jobController.updateFirst o (jobController.addToSet id) (students st) ->
  rowStudent element o st' = Some (jobController.addToSet id stu).
Proof.
  unfold rowStudent. intros H Hst.
  destruct (element !! "onyen") as [v|]; [|discriminate].
  destruct (Mongoose.castValue SString v) as [[o'|n|i]|]; try discriminate.
  destruct (String.eqb o' o); [|discriminate].
  rewrite Hst, head_updateFirst by apply addToSet_onyen.
  rewrite H. reflexivity.
Qed.

(** C4 (as stated): the row jdoe / grader / "Smith, Jane" / "FA 2024"
    has its faculty, semester and student found, yet importing it twice
    leaves no Job at all: "GRADER" is not a position of the schema, the
    save fails validation and the failure is rendered as a row error. *)
Lemma job_import_invalid_position_counterexample :
  Sheet.elements (Sheet.shift (Sheet.shift
     (Sheet.readData jobController.headers graderSheet))) = [graderRow] /\
  findFaculty "Smith" (Some "Jane") campus = Some jane /\
  findSemester "FA" (Some 2024) campus = Resolve (Some fa2024) /\
  rowStudent graderRow "jdoe" campus = Some jdoe /\
  (let r1 := jobController.upload graderSheet campus in
   let r2 := jobController.upload graderSheet (snd r1) in
   (exists msg, fst r1 = [Sent (Render msg); Sent (Redirect "/job/upload")]) /\
   jobs (snd r2) = [] /\
   map jobHistory (students (snd r2)) = [[]]).
Proof.
  vm_compute. repeat split; try reflexivity.
  eexists. reflexivity.
Qed.

(** C4 (amended): take a job row without a course cell whose position,
    supervisor and semester cells are text, whose faculty, semester and
    student are found and whose resolved values pass the casts and the
    validation of the Job schema; take a store in which at most one Job
    agrees with the row and the student's jobHistory holds no identifier
    twice.  Importing the row twice leaves exactly one Job that agrees
    with the row, and the student's jobHistory holds that Job's
    identifier exactly once. *)
Theorem job_import_twice (element : Obj) (st : Store) (p sup sem o : string)
    (f : Faculty) (s : Semester) (stu : Student) (fields' : Obj) :
  element !! "position" = Some (VStr p) ->
  element !! "supervisor" = Some (VStr sup) ->
  element !! "semester" = Some (VStr sem) ->
  element !! "course" = None ->
  element !! "_id" = None ->
  findFaculty (nth 0 (JS.splitComma sup) "") (JS.splitComma sup !! 1%nat) st
    = Some f ->
  findSemester (JS.toUpperCase (nth 0 (JS.splitBlank sem) ""))
               (parseYear (JS.splitBlank sem)) st = Resolve (Some s) ->
  rowStudent element o st = Some stu ->
  Mongoose.prepare jobSchema (resolvedRow element p f s) = Resolve fields' ->
  let query := util.validateModelData (resolvedRow element p f s) jobSchema in
  (length (agreeing query st) <= 1)%nat ->
  NoDup (jobHistory stu) ->
  exists st1 st2 j stu',
    jobController.uploadRow element st = Sheet.Chain ([], st1) /\
    jobController.uploadRow element st1 = Sheet.Chain ([], st2) /\
    agreeing query st2 = [j] /\
    rowStudent element o st2 = Some stu' /\
    count_occ Nat.eq_dec (jobHistory stu') (doc_id j) = 1%nat.
Proof.
  intros Hp Hsup Hsem Hc Hid Hf Hs Hstu Hprep query Hle Hnd.
  pose proof (import_step element st p sup sem o f s stu fields'
                Hp Hsup Hsem Hc Hid Hf Hs Hstu Hprep) as E1.
  cbv zeta in E1. fold query in E1.
  assert (Hcount : forall id,
            count_occ Nat.eq_dec
              (jobHistory (jobController.addToSet id (jobController.addToSet id stu)))
              id = 1%nat).
  { intros id. rewrite addToSet_idem.
    apply count_occ_NoDup_elem; [apply addToSet_NoDup; exact Hnd|].
    apply addToSet_elem. }
  assert (Hstep2 : forall st1 id j,
            faculties st1 = faculties st -> semesters st1 = semesters st ->
            students st1 =
              jobController.updateFirst o (jobController.addToSet id) (students st) ->
            agreeing query st1 = [j] -> doc_id j = id ->
            exists st2 stu',
              jobController.uploadRow element st1 = Sheet.Chain ([], st2) /\
              agreeing query st2 = [j] /\
              rowStudent element o st2 = Some stu' /\
              count_occ Nat.eq_dec (jobHistory stu') (doc_id j) = 1%nat).
  { intros st1 id j Hfac Hsems Hss Hag Hj.
    pose proof (rowStudent_updated element o st st1 stu id Hstu Hss) as Hstu1.
    pose proof (import_step element st1 p sup sem o f s _ fields'
                  Hp Hsup Hsem Hc Hid
                  (eq_trans (findFaculty_same _ _ st st1 Hfac) Hf)
                  (eq_trans (findSemester_same _ _ st st1 Hsems) Hs)
                  Hstu1 Hprep) as E2.
    cbv zeta in E2. fold query in E2. rewrite Hag in E2.
    cbn [head] in E2.
    eexists _, _. split; [exact E2|]. split; [exact Hag|]. split.
    - eapply rowStudent_updated; [exact Hstu1|reflexivity].
    - rewrite Hj. apply Hcount. }
  destruct (agreeing query st) as [|j [|j' r]] eqn:Hag.
  - (* no job agrees: the first import creates it *)
    cbn [head] in E1.
    set (new := mkDoc (nextId st) fields') in *.
    set (st1 := setStudents _ _) in E1.
    assert (Hnew : agreesb jobSchema query new = true).
    { apply agreesb_agrees. apply constructed_agrees; [reflexivity| |].
      - unfold resolvedRow. rewrite !lookup_insert_ne by discriminate.
        exact Hid.
      - apply prepare_construct. exact Hprep. }
    assert (Hag1 : agreeing query st1 = [new]).
    { unfold agreeing. change (jobs st1) with (jobs st ++ [new])%list.
      rewrite List.filter_app. fold (agreeing query st). rewrite Hag.
      simpl. rewrite Hnew. reflexivity. }
    destruct (Hstep2 st1 (nextId st) new eq_refl eq_refl eq_refl Hag1 eq_refl)
      as (st2 & stu' & H1 & H2 & H3 & H4).
    exists st1, st2, new, stu'. auto.
  - (* one job agrees: it is reused *)
    cbn [head] in E1.
    set (st1 := setStudents _ _) in E1.
    assert (Hag1 : agreeing query st1 = [j]) by exact Hag.
    destruct (Hstep2 st1 (doc_id j) j eq_refl eq_refl eq_refl Hag1 eq_refl)
      as (st2 & stu' & H1 & H2 & H3 & H4).
    exists st1, st2, j, stu'. auto.
  - simpl in Hle. lia.
Qed.

Lemma job_import_twice_witness :
  exists st1 st2 j stu',
    jobController.uploadRow taRow campus = Sheet.Chain ([], st1) /\
    jobController.uploadRow taRow st1 = Sheet.Chain ([], st2) /\
    agreeing (util.validateModelData (resolvedRow taRow "ta" jane fa2024) jobSchema)
             st2 = [j] /\
    rowStudent taRow "jdoe" st2 = Some stu' /\
    count_occ Nat.eq_dec (jobHistory stu') (doc_id j) = 1%nat.
Proof.
  apply (job_import_twice taRow campus "ta" "Smith, Jane" "FA 2024" "jdoe"
           jane fa2024 jdoe (fields ta2024)).
  - vm_compute. reflexivity.
  - vm_compute. reflexivity.
  - vm_compute. reflexivity.
  - vm_compute. reflexivity.
  - vm_compute. reflexivity.
  - vm_compute. reflexivity.
  - vm_compute. reflexivity.
  - vm_compute. reflexivity.
  - vm_compute. reflexivity.
  - vm_compute. lia.
  - simpl. apply NoDup_nil_2.
Defined.

(** The same on whole sheets: two uploads of the sheet leave one Job
    and one entry in jdoe's history. *)
Example job_upload_twice :
  let st1 := snd (jobController.upload jobSheet campus) in
  let st2 := snd (jobController.upload jobSheet st1) in
  map doc_id (jobs st2) = [10%nat] /\
  map jobHistory (students st2) = [[10%nat]].
Proof. vm_compute. split; reflexivity. Qed.

(** A row with a course cell stops at the undeclared [reg]: nothing is
    stored for it. *)
Example job_import_course_cell :
  jobController.uploadRow (<["course" := VStr "COMP 410 001"]> taRow) campus =
  Sheet.Chain ([Unhandled "ReferenceError: reg is not defined"], campus).
Proof. vm_compute. reflexivity. Qed.

(** * Further properties of the controllers *)

(** ** Splitting a cell *)

Lemma noComma_dropSpaces (s : string) :
  noComma s = true -> noComma (JS.dropSpaces s) = true.
Proof.
  induction s as [|c r IH]; simpl; [reflexivity|].
  intros H. apply andb_true_iff in H as [Hc Hr].
  destruct (JS.isSpace c); [apply IH; exact Hr|].
  simpl. rewrite Hc, Hr. reflexivity.
Qed.

Lemma matchComma_noComma (s : string) :
  noComma s = true -> JS.matchComma s = None.
Proof.
  intros H. apply noComma_dropSpaces in H. unfold JS.matchComma.
  destruct (JS.dropSpaces s) as [|c r]; [reflexivity|].
  simpl in H. apply andb_true_iff in H as [Hc _].
  destruct c as [[] [] [] [] [] [] [] []]; try reflexivity.
  discriminate Hc.
Qed.

Lemma append_snoc (a : string) (c : ascii) (r : string) :
  ((a ++ String c EmptyString) ++ r)%string = (a ++ String c r)%string.
Proof.
  induction a as [|x a IH]; [reflexivity|].
  change (String x ((a ++ String c EmptyString) ++ r)%string
          = String x (a ++ String c r)%string).
  f_equal. exact IH.
Qed.

Lemma append_empty (a : string) : (a ++ "")%string = a.
Proof.
  induction a as [|x a IH]; [reflexivity|].
  change (String x (a ++ "")%string = String x a). f_equal. exact IH.
Qed.

Lemma splitAux_noComma (fuel : nat) (cur s : string) :
  noComma s = true -> (String.length s < fuel)%nat ->
  JS.splitAux JS.matchComma fuel cur s = [(cur ++ s)%string].
Proof.
  revert cur s. induction fuel as [|fuel IH]; intros cur s Hs Hl; [lia|].
  destruct s as [|c r]; simpl.
  - rewrite append_empty. reflexivity.
  - change (JS.matchComma (String c r)) with (JS.matchComma (String c r)).
    rewrite (matchComma_noComma (String c r) Hs).
    simpl in Hs. apply andb_true_iff in Hs as [_ Hr].
    rewrite IH; [|exact Hr|simpl in Hl; lia].
    rewrite append_snoc. reflexivity.
Qed.

(** A text without a comma is not split by the comma pattern: the one
    piece is the text itself, and there is no second piece to parse a
    year from. *)
Lemma splitComma_noComma (s : string) :
  noComma s = true -> JS.splitComma s = [s].
Proof.
  intros H. unfold JS.splitComma, JS.split.
  rewrite splitAux_noComma; [reflexivity|exact H|lia].
Qed.

Lemma split_nonempty (m : string -> option string) (fuel : nat)
    (cur s : string) :
  JS.splitAux m fuel cur s <> [].
Proof.
  revert cur s. induction fuel as [|fuel IH]; intros cur s; simpl; [discriminate|].
  destruct s as [|c r]; [discriminate|].
  destruct (m (String c r)); [discriminate|apply IH].
Qed.

(** ** What the imports do not store *)

(** In the course import a semester cell without a comma stores
    nothing, whatever the rest of the row and the store hold: the cell
    is split with the comma pattern, so no year is read. *)
Theorem course_import_needs_comma (element : Obj) (st : Store) (sem : string) :
  element !! "semester" = Some (VStr sem) ->
  noComma sem = true ->
  forall ev st',
    courseController.uploadRow element st = Sheet.Chain (ev, st') -> st' = st.
Proof.
  intros Hsem Hno ev st'. unfold courseController.uploadRow.
  rewrite Hsem, (splitComma_noComma sem Hno).
  change (parseYear [sem]) with (@None Z). simpl findSemester.
  destruct (util.allFieldsExist element courseSchema).
  - destruct (element !! "faculty") as [[fac|n|i]|]; try discriminate.
    destruct (findFaculty _ _ st); intros H; injection H as _ <-; reflexivity.
  - intros H. injection H as _ <-. reflexivity.
Qed.

Lemma course_import_needs_comma_witness :
  exists ev,
    courseController.uploadRow (compRow "FA 2024") campus = Sheet.Chain (ev, campus).
Proof.
  destruct (courseController.uploadRow (compRow "FA 2024") campus)
    as [[ev st']|e] eqn:E.
  - exists ev. f_equal. f_equal.
    apply (course_import_needs_comma (compRow "FA 2024") campus "FA 2024"
             eq_refl eq_refl ev st' E).
  - vm_compute in E. discriminate E.
Defined.

(** In the job import a row with a course cell stores nothing and
    touches no job history: its branch stops at the undeclared [reg]
    before the duplicate check. *)
Theorem job_import_course_cell_stores_nothing (element : Obj) (st : Store) :
  is_Some (element !! "course") ->
  forall ev st',
    jobController.uploadRow element st = Sheet.Chain (ev, st') -> st' = st.
Proof.
  intros [c Hc] ev st'. unfold jobController.uploadRow.
  destruct (element !! "position") as [position|];
    [|intros H; injection H as _ <-; reflexivity].
  destruct (element !! "supervisor") as [supervisor|];
    [|intros H; injection H as _ <-; reflexivity].
  destruct (element !! "semester") as [semester|];
    [|intros H; injection H as _ <-; reflexivity].
  destruct supervisor as [sup|n|i]; try discriminate.
  destruct semester as [sem|n|i]; try discriminate.
  destruct (findFaculty _ _ st) as [f|];
    [|intros H; injection H as _ <-; reflexivity].
  destruct (findSemester _ _ st) as [[s|]|e];
    try (intros H; injection H as _ <-; reflexivity).
  destruct position as [p|n|i];
    try (intros H; injection H as _ <-; reflexivity).
  rewrite !lookup_insert_ne by discriminate. rewrite Hc.
  intros H. injection H as _ <-. reflexivity.
Qed.

Lemma job_import_course_cell_stores_nothing_witness :
  exists ev,
    jobController.uploadRow (<["course" := VStr "COMP 410 001"]> taRow) campus
      = Sheet.Chain (ev, campus).
Proof.
  destruct (jobController.uploadRow (<["course" := VStr "COMP 410 001"]> taRow) campus)
    as [[ev st']|e] eqn:E.
  - exists ev. f_equal. f_equal.
    refine (job_import_course_cell_stores_nothing
              (<["course" := VStr "COMP 410 001"]> taRow) campus _ ev st' E).
    exists (VStr "COMP 410 001"). vm_compute. reflexivity.
  - vm_compute in E. discriminate E.
Defined.

(** ** Category codes and the schema *)

(** Every category code the course import rewrites becomes a value the
    Course schema accepts, and rewriting is idempotent: a normalized
    category is left alone. *)
Theorem category_codes_valid (c : Value) :
  (forall s, c = VStr s -> s ∈ categoryCodes ->
     Mongoose.enumOk (enum ["NA"; "Theory"; "Systems"; "Appls"])
                     (courseController.normalizeCategory c) = true) /\
  schemaPath courseSchema "category"
    = Some (enum ["NA"; "Theory"; "Systems"; "Appls"]) /\
  courseController.normalizeCategory (courseController.normalizeCategory c)
    = courseController.normalizeCategory c.
Proof.
  split; [|split; [reflexivity|]].
  - intros s -> Hs. unfold categoryCodes in Hs.
    repeat (apply elem_of_cons in Hs as [->|Hs]; [reflexivity|]).
    inversion Hs.
  - destruct c as [s|n|i]; try reflexivity.
    unfold courseController.normalizeCategory.
    destruct (String.eqb s "t" || String.eqb s "T") eqn:E1; [reflexivity|].
    destruct (String.eqb s "s" || String.eqb s "S") eqn:E2; [reflexivity|].
    destruct (String.eqb s "a" || String.eqb s "A" ||
              String.eqb s "applications" || String.eqb s "Applications")
      eqn:E3; [reflexivity|].
    rewrite E1, E2, E3. reflexivity.
Qed.

Lemma category_codes_valid_witness :
  Mongoose.enumOk (enum ["NA"; "Theory"; "Systems"; "Appls"])
                  (courseController.normalizeCategory (VStr "applications")) = true.
Proof.
  apply (proj1 (category_codes_valid (VStr "applications")) "applications").
  - reflexivity.
  - unfold categoryCodes. do 6 right. left.
Defined.

(** ** Columns and cells *)

(** The columns of an uploaded sheet are the declared fields in
    declaration order: column [i] of a course sheet is field [i] of the
    Course schema; a job sheet has the onyen in column A and field [i]
    of the Job schema in column [i+1]; the columns after the last field,
    up to Z, name no field and end up under the key "undefined". *)
Theorem sheet_columns_positional (i : nat) :
  ((i < 26)%nat ->
   courseController.headers !! column i = map fst courseSchema !! i) /\
  jobController.headers !! column 0 = Some "onyen" /\
  ((i < 25)%nat ->
   jobController.headers !! column (S i) = map fst jobSchema !! i) /\
  ((10 <= i < 26)%nat ->
   Sheet.headerOf courseController.headers (column i) = "undefined").
Proof.
  split; [|split; [reflexivity|split]].
  - intros H. do 26 (destruct i as [|i]; [vm_compute; reflexivity|]). lia.
  - intros H. do 25 (destruct i as [|i]; [vm_compute; reflexivity|]). lia.
  - intros [H1 H2]. do 10 (destruct i as [|i]; [lia|]).
    do 16 (destruct i as [|i]; [vm_compute; reflexivity|]). lia.
Qed.

Lemma sheet_columns_positional_witness :
  courseController.headers !! column 4 = Some "category" /\
  jobController.headers !! column 2 = Some "supervisor" /\
  Sheet.headerOf courseController.headers (column 10) = "undefined".
Proof.
  split; [|split].
  - apply (proj1 (sheet_columns_positional 4)). lia.
  - apply (proj1 (proj2 (proj2 (sheet_columns_positional 1)))). lia.
  - apply (proj2 (proj2 (proj2 (sheet_columns_positional 10)))). lia.
Defined.

Lemma getAt_setAt_eq (i : nat) (o : Obj) (data : Sheet.Data) :
  Sheet.getAt i (Sheet.setAt i o data) = o.
Proof.
  revert data. unfold Sheet.getAt.
  induction i as [|i IH]; intros [|x r]; simpl; try reflexivity; apply IH.
Qed.

Lemma getAt_setAt_ne (i j : nat) (o : Obj) (data : Sheet.Data) :
  i <> j -> Sheet.getAt j (Sheet.setAt i o data) = Sheet.getAt j data.
Proof.
  unfold Sheet.getAt. revert j data.
  induction i as [|i IH]; intros [|j] [|x r] H; simpl; try reflexivity;
    try congruence.
  - etransitivity; [apply (IH j []); congruence|reflexivity].
  - apply IH. congruence.
Qed.

Lemma isBang_eqb (c : ascii) (r : string) :
  Sheet.isBang (String c r) = Ascii.eqb c "!".
Proof. destruct c as [[] [] [] [] [] [] [] []]; reflexivity. Qed.

Lemma readData_snoc (headers : gmap string string) (ws : Sheet.Worksheet)
    (cell : string * Value) :
  Sheet.readData headers (ws ++ [cell])%list =
  Sheet.addCell headers (Sheet.readData headers ws) cell.
Proof. unfold Sheet.readData. rewrite fold_left_app. reflexivity. Qed.

(** Reading one more cell [c<row>] of a worksheet writes its value in
    the element of that sheet row, under the field of column [c], and
    changes nothing else: the other fields of that element and every
    other element stay as they were.  A key that starts with "!" is
    skipped. *)
Theorem sheet_cell_lands (headers : gmap string string) (ws : Sheet.Worksheet)
    (c : ascii) (rowtext : string) (row : Z) (v : Value) :
  c <> "!"%char ->
  JS.parseInt rowtext = Some row -> 0 <= row ->
  let field := Sheet.headerOf headers (String c EmptyString) in
  let before := Sheet.readData headers ws in
  let after := Sheet.readData headers (ws ++ [(String c rowtext, v)])%list in
  Sheet.getAt (Z.to_nat row) after !! field = Some v /\
  (forall k, k <> field ->
     Sheet.getAt (Z.to_nat row) after !! k = Sheet.getAt (Z.to_nat row) before !! k) /\
  (forall r, r <> Z.to_nat row -> Sheet.getAt r after = Sheet.getAt r before) /\
  (forall key, Sheet.readData headers (ws ++ [(String "!" key, v)])%list = before).
Proof.
  intros Hc Hrow Hpos field before after.
  assert (E : after =
              Sheet.setAt (Z.to_nat row)
                (<[field := v]> (Sheet.getAt (Z.to_nat row) before)) before).
  { unfold after. rewrite readData_snoc. unfold Sheet.addCell.
    cbn [fst snd]. rewrite isBang_eqb.
    apply Ascii.eqb_neq in Hc. rewrite Hc.
    cbn [JS.substring1 JS.substring01]. rewrite Hrow.
    apply Z.leb_le in Hpos. rewrite Hpos. reflexivity. }
  rewrite E. split; [|split; [|split]].
  - rewrite getAt_setAt_eq. apply lookup_insert_eq.
  - intros k Hk. rewrite getAt_setAt_eq. apply lookup_insert_ne. congruence.
  - intros r Hr. apply getAt_setAt_ne. congruence.
  - intros key. rewrite readData_snoc. reflexivity.
Qed.

Lemma sheet_cell_lands_witness :
  Sheet.getAt 3
    (Sheet.readData jobController.headers (jobSheet ++ [("B3", VStr "RA")])%list)
    !! "position" = Some (VStr "RA").
Proof.
  refine (proj1 (sheet_cell_lands jobController.headers jobSheet "B" "3" 3
                   (VStr "RA") _ _ _)).
  - discriminate.
  - reflexivity.
  - lia.
Defined.

(** ** One bad row in a batch *)

Lemma forEach_app (f : Obj -> Store -> Sheet.Row) (before after : list Obj)
    (st : Store) :
  Sheet.forEach f (before ++ after)%list st =
  let '(ev, st', ok) := Sheet.forEach f before st in
  if ok then
    let '(ev2, st2, ok2) := Sheet.forEach f after st' in ((ev ++ ev2)%list, st2, ok2)
  else (ev, st', false).
Proof.
  revert st. induction before as [|e r IH]; intros st; simpl.
  - destruct (Sheet.forEach f after st) as [[ev2 st2] ok2]. reflexivity.
  - destruct (f e st) as [[ev st']|err]; [|reflexivity].
    rewrite IH. destruct (Sheet.forEach f r st') as [[ev1 st1] ok1].
    destruct ok1; [|reflexivity].
    destruct (Sheet.forEach f after st1) as [[ev2 st2] ok2].
    rewrite app_assoc. reflexivity.
Qed.

(** A job row that lacks its position, supervisor or semester cell costs
    one rendered error and nothing else: the store is untouched and the
    rows after it are processed as if it were not there. *)
Theorem job_row_missing_cell_isolated (element : Obj) (rest : list Obj)
    (st : Store) :
  element !! "position" = None \/ element !! "supervisor" = None \/
  element !! "semester" = None ->
  Sheet.forEach jobController.uploadRow (element :: rest) st =
  let '(ev, st', ok) := Sheet.forEach jobController.uploadRow rest st in
  (Sent (Render (jobController.label element ++
                 " did not save because it is missing a field.")) :: ev,
   st', ok).
Proof.
  intros H.
  assert (E : jobController.uploadRow element st =
              Sheet.Chain ([Sent (Render (jobController.label element ++
                 " did not save because it is missing a field."))], st)).
  { unfold jobController.uploadRow.
    destruct H as [H|[H|H]]; rewrite H.
    - reflexivity.
    - destruct (element !! "position"); reflexivity.
    - destruct (element !! "position"); [|reflexivity].
      destruct (element !! "supervisor"); reflexivity. }
  simpl. rewrite E.
  destruct (Sheet.forEach jobController.uploadRow rest st) as [[ev st'] ok].
  reflexivity.
Qed.

Lemma job_row_missing_cell_isolated_witness :
  Sheet.forEach jobController.uploadRow [noSupervisorBody; taRow] campus =
  let '(ev, st', ok) := Sheet.forEach jobController.uploadRow [taRow] campus in
  (Sent (Render (jobController.label noSupervisorBody ++
                 " did not save because it is missing a field.")) :: ev,
   st', ok).
Proof.
  apply (job_row_missing_cell_isolated noSupervisorBody [taRow] campus).
  right. left. vm_compute. reflexivity.
Defined.

(** A job row whose supervisor or semester cell holds a number instead
    of text ends the whole batch: the callback throws before any promise
    is started, so the rows after it are never looked at and the
    rows before it are all that is processed. *)
Theorem job_row_numeric_cell_aborts (element : Obj) (before rest : list Obj)
    (st : Store) (position supervisor semester : Value) (n : Z) :
  element !! "position" = Some position ->
  element !! "supervisor" = Some supervisor ->
  element !! "semester" = Some semester ->
  supervisor = VNum n \/ semester = VNum n ->
  Sheet.forEach jobController.uploadRow (before ++ element :: rest)%list st =
  let '(ev, st', ok) := Sheet.forEach jobController.uploadRow before st in
  if ok then ((ev ++ [Thrown "TypeError"])%list, st', false)
  else (ev, st', false).
Proof.
  intros Hp Hsup Hsem Hnum. rewrite forEach_app.
  destruct (Sheet.forEach jobController.uploadRow before st) as [[ev st'] ok].
  destruct ok; [|reflexivity].
  assert (E : jobController.uploadRow element st' = Sheet.Throws "TypeError").
  { unfold jobController.uploadRow. rewrite Hp, Hsup, Hsem.
    destruct Hnum as [-> | ->]; [reflexivity|].
    destruct supervisor; reflexivity. }
  simpl. rewrite E. reflexivity.
Qed.

Lemma job_row_numeric_cell_aborts_witness :
  Sheet.forEach jobController.uploadRow
    ([] ++ <["semester" := VNum 2024]> taRow :: [taRow])%list campus =
  ([Thrown "TypeError"], campus, false).
Proof.
  apply (job_row_numeric_cell_aborts (<["semester" := VNum 2024]> taRow) []
           [taRow] campus (VStr "ta") (VStr "Smith, Jane") (VNum 2024) 2024).
  - vm_compute. reflexivity.
  - vm_compute. reflexivity.
  - vm_compute. reflexivity.
  - right. reflexivity.
Defined.

(** ** What an import leaves alone *)

Lemma extends_refl (s : Student) : extends s s.
Proof.
  unfold extends. repeat split; try reflexivity.
  exists []. rewrite app_nil_r. reflexivity.
Qed.

Lemma extends_trans (a b c : Student) : extends a b -> extends b c -> extends a c.
Proof.
  intros (H1 & H2 & H3 & H4 & m & H5) (G1 & G2 & G3 & G4 & m' & G5).
  unfold extends. repeat split; try congruence.
  exists (m ++ m')%list. rewrite G5, H5, app_assoc. reflexivity.
Qed.

Lemma Forall2_extends_refl (ss : list Student) : Forall2 extends ss ss.
Proof. induction ss; constructor; [apply extends_refl|assumption]. Qed.

Lemma Forall2_extends_trans (a b c : list Student) :
  Forall2 extends a b -> Forall2 extends b c -> Forall2 extends a c.
Proof.
  intros H. revert c. induction H as [|x y l l' Hxy Hl IH]; intros c Hc.
  - inversion Hc. constructor.
  - inversion Hc as [|y' z l2 l3 Hyz Hl2]; subst.
    constructor; [eapply extends_trans; eassumption|apply IH; assumption].
Qed.

Lemma grows_refl (st : Store) : grows st st.
Proof.
  unfold grows. repeat split; try reflexivity.
  - exists []. rewrite app_nil_r. reflexivity.
  - exists []. rewrite app_nil_r. reflexivity.
  - apply Forall2_extends_refl.
Qed.

Lemma grows_trans (a b c : Store) : grows a b -> grows b c -> grows a c.
Proof.
  intros (H1 & H2 & H3 & [m4 H4] & [m5 H5] & H6 & H7)
         (G1 & G2 & G3 & [n4 G4] & [n5 G5] & G6 & G7).
  unfold grows. repeat split; try congruence.
  - exists (m4 ++ n4)%list. rewrite G4, H4, app_assoc. reflexivity.
  - exists (m5 ++ n5)%list. rewrite G5, H5, app_assoc. reflexivity.
  - eapply Forall2_extends_trans; eassumption.
  - lia.
Qed.

Lemma addToSet_extends (j : ObjectId) (s : Student) :
  extends s (jobController.addToSet j s).
Proof.
  unfold jobController.addToSet.
  destruct (existsb (Nat.eqb j) (jobHistory s)); [apply extends_refl|].
  unfold extends. simpl. repeat split. exists [j]. reflexivity.
Qed.

Lemma updateFirst_extends (o : string) (upd : Student -> Student)
    (ss : list Student) :
  (forall s, extends s (upd s)) ->
  Forall2 extends ss (jobController.updateFirst o upd ss).
Proof.
  intros Hu. induction ss as [|s r IH]; simpl; [constructor|].
  destruct (String.eqb (onyen s) o).
  - constructor; [apply Hu|apply Forall2_extends_refl].
  - constructor; [apply extends_refl|exact IH].
Qed.

Lemma jobFrame_refl (st : Store) : jobFrame st st.
Proof. split; [apply grows_refl|reflexivity]. Qed.

Lemma jobFrame_trans (a b c : Store) : jobFrame a b -> jobFrame b c -> jobFrame a c.
Proof.
  intros [H1 H2] [G1 G2]. split; [eapply grows_trans; eassumption|congruence].
Qed.

Lemma pushStudentJob_frame (o : option Value) (j : ObjectId) (st st' : Store) :
  jobController.pushStudentJob o j st = jobController.PushResolved st' ->
  jobFrame st st'.
Proof.
  unfold jobController.pushStudentJob. intros H.
  destruct o as [v|]; [|discriminate].
  destruct (Mongoose.castValue SString v) as [[t|n|i]|]; try discriminate.
  destruct (head _); [|discriminate]. injection H as <-.
  split; [|reflexivity]. unfold grows. simpl.
  split; [reflexivity|]. split; [reflexivity|]. split; [reflexivity|].
  split; [exists []; rewrite app_nil_r; reflexivity|].
  split; [exists []; rewrite app_nil_r; reflexivity|].
  split; [|lia].
  apply updateFirst_extends. intros x. apply addToSet_extends.
Qed.

Lemma pushed_frame (element : Obj) (j : ObjectId) (st st' : Store)
    (ev : list Event) :
  jobController.pushed element j st = (ev, st') -> jobFrame st st'.
Proof.
  unfold jobController.pushed. intros H.
  destruct (jobController.pushStudentJob (element !! "onyen") j st) as [st1| |] eqn:E;
    injection H as _ <-.
  - eapply pushStudentJob_frame. exact E.
  - apply jobFrame_refl.
  - apply jobFrame_refl.
Qed.

Lemma saveJob_frame (obj : Obj) (st st' : Store) (d : Doc) :
  saveJob obj st = Resolve (d, st') ->
  jobFrame st st' /\ jobs st' = (jobs st ++ [d])%list /\ doc_id d = nextId st /\
  nextId st' = S (nextId st).
Proof.
  unfold saveJob. destruct (Mongoose.prepare jobSchema obj) as [o|e]; [|discriminate].
  intros H. injection H as <- <-.
  split; [|repeat split; reflexivity].
  split; [|reflexivity].
  unfold grows. simpl.
  split; [reflexivity|]. split; [reflexivity|]. split; [reflexivity|].
  split; [exists []; rewrite app_nil_r; reflexivity|].
  split; [eexists; reflexivity|].
  split; [apply Forall2_extends_refl|lia].
Qed.

Lemma job_uploadRow_frame (element : Obj) (st st' : Store) (ev : list Event) :
  jobController.uploadRow element st = Sheet.Chain (ev, st') -> jobFrame st st'.
Proof.
  unfold jobController.uploadRow. intros H.
  repeat case_match; simplify_eq; try apply jobFrame_refl;
    try (eapply pushed_frame; eassumption).
  match goal with
  | Hs : saveJob _ _ = Resolve _ |- _ => apply saveJob_frame in Hs as [Hs _]
  end.
  eapply jobFrame_trans; [eassumption|eapply pushed_frame; eassumption].
Qed.

Lemma forEach_preserves (R : Store -> Store -> Prop)
    (f : Obj -> Store -> Sheet.Row) :
  (forall st, R st st) -> (forall a b c, R a b -> R b c -> R a c) ->
  (forall e st ev st', f e st = Sheet.Chain (ev, st') -> R st st') ->
  forall rows st, R st (snd (fst (Sheet.forEach f rows st))).
Proof.
  intros Hr Ht Hf rows. induction rows as [|e r IH]; intros st; simpl.
  - apply Hr.
  - destruct (f e st) as [[ev st']|err] eqn:E; [|apply Hr].
    specialize (IH st').
    destruct (Sheet.forEach f r st') as [[ev2 st2] ok]. simpl in *.
    eapply Ht; [eapply Hf; exact E|exact IH].
Qed.

(** Whatever sheet is uploaded, the job import only appends Jobs and
    only adds to job histories: faculty, semesters, grades and courses
    are as before, every earlier Job is still there in its place,
    every student keeps identity, onyen, grades and the earlier entries
    of the job history, and no issued identifier is taken back. *)
Theorem job_upload_frame (worksheet : Sheet.Worksheet) (st : Store) :
  let st' := snd (jobController.upload worksheet st) in
  grows st st' /\ courses st' = courses st.
Proof.
  unfold jobController.upload.
  pose proof (forEach_preserves jobFrame jobController.uploadRow
                jobFrame_refl jobFrame_trans
                (fun e s0 ev s1 => job_uploadRow_frame e s0 s1 ev)
                (Sheet.elements (Sheet.shift (Sheet.shift
                   (Sheet.readData jobController.headers worksheet)))) st) as H.
  destruct (Sheet.forEach _ _ st) as [[ev st'] ok]. exact H.
Qed.

Lemma saveCourse_frame (obj : Obj) (st st' : Store) (d : Doc) :
  saveCourse obj st = Resolve (d, st') ->
  courseFrame st st' /\ courses st' = (courses st ++ [d])%list /\
  doc_id d = nextId st /\ nextId st' = S (nextId st).
Proof.
  unfold saveCourse.
  destruct (Mongoose.prepare courseSchema obj) as [o|e]; [|discriminate].
  intros H. injection H as <- <-.
  split; [|repeat split; reflexivity].
  split; [|split; reflexivity].
  unfold grows. simpl.
  split; [reflexivity|]. split; [reflexivity|]. split; [reflexivity|].
  split; [eexists; reflexivity|].
  split; [exists []; rewrite app_nil_r; reflexivity|].
  split; [apply Forall2_extends_refl|lia].
Qed.

Lemma courseFrame_refl (st : Store) : courseFrame st st.
Proof. split; [apply grows_refl|split; reflexivity]. Qed.

Lemma courseFrame_trans (a b c : Store) :
  courseFrame a b -> courseFrame b c -> courseFrame a c.
Proof.
  intros (H1 & H2 & H3) (G1 & G2 & G3).
  split; [eapply grows_trans; eassumption|split; congruence].
Qed.

Lemma course_uploadRow_frame (element : Obj) (st st' : Store) (ev : list Event) :
  courseController.uploadRow element st = Sheet.Chain (ev, st') ->
  courseFrame st st'.
Proof.
  unfold courseController.uploadRow. intros H.
  repeat case_match; simplify_eq; try apply courseFrame_refl.
  match goal with
  | Hs : saveCourse _ _ = Resolve _ |- _ =>
      apply saveCourse_frame in Hs as [Hs _]; exact Hs
  end.
Qed.

(** Whatever sheet is uploaded, the course import only appends Courses:
    jobs and students are exactly as before, faculty, semesters and
    grades too, and every earlier Course is still there in its place. *)
Theorem course_upload_frame (worksheet : Sheet.Worksheet) (st : Store) :
  let st' := snd (courseController.upload worksheet st) in
  grows st st' /\ jobs st' = jobs st /\ students st' = students st.
Proof.
  unfold courseController.upload.
  pose proof (forEach_preserves courseFrame courseController.uploadRow
                courseFrame_refl courseFrame_trans
                (fun e s0 ev s1 => course_uploadRow_frame e s0 s1 ev)
                (Sheet.elements (Sheet.shift (Sheet.shift
                   (Sheet.readData courseController.headers worksheet)))) st) as H.
  destruct (Sheet.forEach _ _ st) as [[ev st'] ok]. exact H.
Qed.

(** ** Identifiers *)

Lemma issuedIn_mono (n m : ObjectId) (coll : list Doc) :
  (n <= m)%nat -> issuedIn n coll -> issuedIn m coll.
Proof.
  intros Hle [H1 H2]. split; [|exact H2].
  eapply Forall_impl; [exact H1|]. simpl. intros; lia.
Qed.

Lemma issuedIn_append (n : ObjectId) (coll : list Doc) (o : Obj) :
  issuedIn n coll -> issuedIn (S n) (coll ++ [mkDoc n o])%list.
Proof.
  intros [H1 H2]. unfold issuedIn. rewrite map_app. simpl. split.
  - apply Forall_app. split.
    + eapply Forall_impl; [exact H1|]. simpl. intros; lia.
    + constructor; [lia|constructor].
  - apply NoDup_app. split; [exact H2|]. split.
    + intros x Hx Hx'. apply list_elem_of_singleton in Hx'. subst x.
      rewrite Forall_forall in H1. specialize (H1 n Hx). lia.
    + apply NoDup_singleton.
Qed.

Lemma removeById_ids (id : ObjectId) (coll : list Doc) :
  sublist (map doc_id (snd (Mongoose.removeById id coll))) (map doc_id coll).
Proof.
  induction coll as [|d r IH]; simpl; [constructor|].
  destruct (Nat.eqb (doc_id d) id).
  - simpl. apply sublist_cons. reflexivity.
  - destruct (Mongoose.removeById id r) as [x r']. simpl in *.
    apply sublist_skip. exact IH.
Qed.

Lemma issuedIn_remove (n id : ObjectId) (coll : list Doc) :
  issuedIn n coll -> issuedIn n (snd (Mongoose.removeById id coll)).
Proof.
  intros [H1 H2]. pose proof (removeById_ids id coll) as Hs. split.
  - rewrite Forall_forall in H1 |- *. intros x Hx.
    apply H1. eapply elem_of_sublist; eassumption.
  - eapply sublist_NoDup; eassumption.
Qed.

Lemma updateById_ids (id : ObjectId) (upd : Obj) (coll : list Doc) :
  map doc_id (snd (Mongoose.updateById id upd coll)) = map doc_id coll.
Proof.
  induction coll as [|d r IH]; simpl; [reflexivity|].
  destruct (Nat.eqb (doc_id d) id); [reflexivity|].
  destruct (Mongoose.updateById id upd r) as [x r']. simpl in *.
  rewrite IH. reflexivity.
Qed.

Lemma issuedIn_update (n id : ObjectId) (upd : Obj) (coll : list Doc) :
  issuedIn n coll -> issuedIn n (snd (Mongoose.updateById id upd coll)).
Proof. unfold issuedIn. rewrite updateById_ids. auto. Qed.

Lemma saveCourse_issued (obj : Obj) (st st' : Store) (d : Doc) :
  saveCourse obj st = Resolve (d, st') -> issued st -> issued st'.
Proof.
  unfold saveCourse.
  destruct (Mongoose.prepare courseSchema obj) as [o|e]; [|discriminate].
  intros H [Hc Hj]. injection H as <- <-. split; simpl.
  - apply issuedIn_append. exact Hc.
  - eapply issuedIn_mono; [|exact Hj]. lia.
Qed.

Lemma saveJob_issued (obj : Obj) (st st' : Store) (d : Doc) :
  saveJob obj st = Resolve (d, st') -> issued st -> issued st'.
Proof.
  unfold saveJob.
  destruct (Mongoose.prepare jobSchema obj) as [o|e]; [|discriminate].
  intros H [Hc Hj]. injection H as <- <-. split; simpl.
  - eapply issuedIn_mono; [|exact Hc]. lia.
  - apply issuedIn_append. exact Hj.
Qed.

Lemma pushStudentJob_issued (o : option Value) (j : ObjectId) (st st' : Store) :
  jobController.pushStudentJob o j st = jobController.PushResolved st' ->
  issued st -> issued st'.
Proof.
  unfold jobController.pushStudentJob. intros H.
  destruct o as [v|]; [|discriminate].
  destruct (Mongoose.castValue SString v) as [[t|n|i]|]; try discriminate.
  destruct (head _); [|discriminate]. injection H as <-. auto.
Qed.

Lemma pushed_issued (element : Obj) (j : ObjectId) (st st' : Store)
    (ev : list Event) :
  jobController.pushed element j st = (ev, st') -> issued st -> issued st'.
Proof.
  unfold jobController.pushed. intros H.
  destruct (jobController.pushStudentJob (element !! "onyen") j st) as [st1| |] eqn:E;
    injection H as _ <-; auto.
  eapply pushStudentJob_issued. exact E.
Qed.

Lemma course_uploadRow_issued (element : Obj) (st : Store) (ev : list Event)
    (st' : Store) :
  courseController.uploadRow element st = Sheet.Chain (ev, st') ->
  issued st -> issued st'.
Proof.
  unfold courseController.uploadRow. intros H.
  repeat case_match; simplify_eq; auto.
  eapply saveCourse_issued; eassumption.
Qed.

Lemma job_uploadRow_issued (element : Obj) (st : Store) (ev : list Event)
    (st' : Store) :
  jobController.uploadRow element st = Sheet.Chain (ev, st') ->
  issued st -> issued st'.
Proof.
  unfold jobController.uploadRow. intros H.
  repeat case_match; simplify_eq; auto;
    try (eapply pushed_issued; eassumption).
  intros Hi. eapply pushed_issued; [eassumption|].
  eapply saveJob_issued; eassumption.
Qed.

Lemma forEach_issued (f : Obj -> Store -> Sheet.Row) :
  (forall e st ev st', f e st = Sheet.Chain (ev, st') -> issued st -> issued st') ->
  forall rows st, issued st -> issued (snd (fst (Sheet.forEach f rows st))).
Proof.
  intros Hf rows st.
  apply (forEach_preserves (fun a b => issued a -> issued b) f); auto.
Qed.

Lemma setCourses_updated (i : ObjectId) (g : Obj) (st : Store)
    (x : option Doc) (l : list Doc) :
  Mongoose.updateById i g (courses st) = (x, l) ->
  issued st -> issued (setCourses l st).
Proof.
  intros H [Hc Hj]. split; [|exact Hj]. simpl.
  replace l with (snd (Mongoose.updateById i g (courses st)))
    by (rewrite H; reflexivity).
  apply issuedIn_update. exact Hc.
Qed.

Lemma setCourses_removed (i : ObjectId) (st : Store)
    (x : option Doc) (l : list Doc) :
  Mongoose.removeById i (courses st) = (x, l) ->
  issued st -> issued (setCourses l st).
Proof.
  intros H [Hc Hj]. split; [|exact Hj]. simpl.
  replace l with (snd (Mongoose.removeById i (courses st)))
    by (rewrite H; reflexivity).
  apply issuedIn_remove. exact Hc.
Qed.

Lemma setJobs_updated (i : ObjectId) (g : Obj) (st : Store)
    (x : option Doc) (l : list Doc) :
  Mongoose.updateById i g (jobs st) = (x, l) ->
  issued st -> issued (setJobs l st).
Proof.
  intros H [Hc Hj]. split; [exact Hc|]. simpl.
  replace l with (snd (Mongoose.updateById i g (jobs st)))
    by (rewrite H; reflexivity).
  apply issuedIn_update. exact Hj.
Qed.

Lemma setJobs_removed (i : ObjectId) (st : Store)
    (x : option Doc) (l : list Doc) :
  Mongoose.removeById i (jobs st) = (x, l) ->
  issued st -> issued (setJobs l st).
Proof.
  intros H [Hc Hj]. split; [exact Hc|]. simpl.
  replace l with (snd (Mongoose.removeById i (jobs st)))
    by (rewrite H; reflexivity).
  apply issuedIn_remove. exact Hj.
Qed.

(** Every handler of the course controller keeps the identifiers in
    order: if every stored Course and Job carries an identifier already
    issued and none twice, the same holds after a create, an update, a
    delete or an upload, whatever the request.  So a create never reuses
    the identifier of a stored record. *)
Theorem course_handlers_keep_ids (st : Store) :
  issued st ->
  (forall body, issued (snd (courseController.post body st))) /\
  (forall body, issued (snd (courseController.put body st))) /\
  (forall id, issued (snd (courseController.delete id st))) /\
  (forall worksheet, issued (snd (courseController.upload worksheet st))).
Proof.
  intros Hi. split; [|split; [|split]].
  - intros body. unfold courseController.post.
    repeat case_match; simplify_eq; simpl; auto.
    eapply saveCourse_issued; [eassumption|exact Hi].
  - intros body. unfold courseController.put.
    repeat case_match; simplify_eq; simpl; auto;
      (eapply setCourses_updated; [eassumption|exact Hi]).
  - intros id. unfold courseController.delete.
    destruct id as [id|]; [|exact Hi].
    destruct (0 <? length (courseController.studentsWithCourse id st))%nat;
      [exact Hi|].
    destruct (Mongoose.find jobSchema (jobs st) {[ "course" := id ]}) as [r|e];
      [|exact Hi].
    destruct (0 <? length r)%nat; [exact Hi|].
    destruct id as [x|n|i]; try exact Hi.
    destruct (Mongoose.removeById i (courses st)) as [[c|] cs] eqn:E;
      [|exact Hi].
    eapply setCourses_removed; [exact E|exact Hi].
  - intros worksheet. unfold courseController.upload.
    pose proof (forEach_issued courseController.uploadRow course_uploadRow_issued
                  (Sheet.elements (Sheet.shift (Sheet.shift
                     (Sheet.readData courseController.headers worksheet)))) st Hi)
      as H.
    destruct (Sheet.forEach _ _ st) as [[ev st'] ok]. exact H.
Qed.

Lemma assignOne_issued (j : ObjectId) (acc : Outcome) (student : Value) :
  issued (snd acc) -> issued (snd (jobController.assignOne j acc student)).
Proof.
  destruct acc as [ev st]. unfold jobController.assignOne. simpl.
  intros Hi. repeat case_match; simplify_eq; simpl; auto;
    try (eapply pushStudentJob_issued; eassumption).
Qed.

Lemma fold_assignOne_issued (j : ObjectId) (l : list Value) (acc : Outcome) :
  issued (snd acc) ->
  issued (snd (fold_left (jobController.assignOne j) l acc)).
Proof.
  revert acc. induction l as [|v l IH]; intros acc Hi; simpl; [exact Hi|].
  apply IH. apply assignOne_issued. exact Hi.
Qed.

(** The same for the job controller: create, update, delete, upload,
    assign and unAssign keep the identifiers in order, whatever the
    request. *)
Theorem job_handlers_keep_ids (st : Store) :
  issued st ->
  (forall body, issued (snd (jobController.post body st))) /\
  (forall body, issued (snd (jobController.put body st))) /\
  (forall id, issued (snd (jobController.delete id st))) /\
  (forall worksheet, issued (snd (jobController.upload worksheet st))) /\
  (forall jobId students, issued (snd (jobController.assign jobId students st))) /\
  (forall input, issued (snd (jobController.unAssign input st))).
Proof.
  intros Hi. split; [|split; [|split; [|split; [|split]]]].
  - intros body. unfold jobController.post.
    repeat case_match; simplify_eq; simpl; auto.
    eapply saveJob_issued; [eassumption|exact Hi].
  - intros body. unfold jobController.put.
    repeat case_match; simplify_eq; simpl; auto;
      (eapply setJobs_updated; [eassumption|exact Hi]).
  - intros id. unfold jobController.delete.
    repeat case_match; simplify_eq; simpl; auto;
      (eapply setJobs_removed; [eassumption|exact Hi]).
  - intros worksheet. unfold jobController.upload.
    pose proof (forEach_issued jobController.uploadRow job_uploadRow_issued
                  (Sheet.elements (Sheet.shift (Sheet.shift
                     (Sheet.readData jobController.headers worksheet)))) st Hi)
      as H.
    destruct (Sheet.forEach _ _ st) as [[ev st'] ok]. exact H.
  - intros jobId students. unfold jobController.assign.
    repeat case_match; simplify_eq; simpl; auto.
    apply fold_assignOne_issued. exact Hi.
  - intros input. unfold jobController.unAssign.
    repeat case_match; simplify_eq; simpl; auto.
Qed.

Lemma issued_campus : issued campus.
Proof.
  unfold issued, issuedIn. simpl. repeat split; constructor.
Qed.

Lemma course_handlers_keep_ids_witness :
  issued (snd (courseController.post (courseBody "COMP") campus)).
Proof.
  exact (proj1 (course_handlers_keep_ids campus issued_campus) (courseBody "COMP")).
Defined.

Lemma job_handlers_keep_ids_witness :
  issued (snd (jobController.upload jobSheet campus)).
Proof.
  exact (proj1 (proj2 (proj2 (proj2 (job_handlers_keep_ids campus issued_campus))))
           jobSheet).
Defined.

(** ** Assigning and unassigning a job *)

Lemma updateFirst_twice (o : string) (upd : Student -> Student)
    (ss : list Student) :
  (forall s, onyen (upd s) = onyen s) ->
  (forall s, upd (upd s) = upd s) ->
  jobController.updateFirst o upd (jobController.updateFirst o upd ss) =
  jobController.updateFirst o upd ss.
Proof.
  intros Hu Hi. induction ss as [|s r IH]; simpl; [reflexivity|].
  destruct (String.eqb (onyen s) o) eqn:E; simpl.
  - rewrite Hu, E, Hi. reflexivity.
  - rewrite E, IH. reflexivity.
Qed.

Lemma studentById_id (sid : ObjectId) (st : Store) (s : Student) :
  jobController.studentById sid st = Some s -> student_id s = sid.
Proof.
  unfold jobController.studentById. intros H.
  destruct (List.filter _ (students st)) as [|x l] eqn:E; [discriminate|].
  injection H as ->.
  assert (Hin : In s (List.filter (fun s => Nat.eqb (student_id s) sid)
                                  (students st))) by (rewrite E; left; reflexivity).
  apply filter_In in Hin as [_ Hin]. apply Nat.eqb_eq. exact Hin.
Qed.

Lemma updateFirst_elem (o : string) (upd : Student -> Student)
    (ss : list Student) (s : Student) :
  head (List.filter (fun x => String.eqb (onyen x) o) ss) = Some s ->
  upd s ∈ jobController.updateFirst o upd ss.
Proof.
  induction ss as [|x r IH]; simpl; [discriminate|].
  destruct (String.eqb (onyen x) o); simpl.
  - intros H. injection H as ->. left.
  - intros H. right. apply IH. exact H.
Qed.

Lemma studentById_updateFirst (sid : ObjectId) (upd : Student -> Student)
    (ss : list Student) (s : Student) (st : Store) :
  (forall x, student_id (upd x) = student_id x) ->
  jobController.studentById sid (setStudents ss st) = Some s ->
  head (List.filter (fun x => String.eqb (onyen x) (onyen s)) ss) = Some s ->
  jobController.studentById sid
    (setStudents (jobController.updateFirst (onyen s) upd ss) st) = Some (upd s).
Proof.
  intros Hu. unfold jobController.studentById. simpl.
  induction ss as [|x r IH]; simpl; [discriminate|].
  destruct (String.eqb (onyen x) (onyen s)) eqn:Eo; simpl.
  - intros H1 H2. injection H2 as ->.
    rewrite Hu. destruct (Nat.eqb (student_id s) sid) eqn:Ei; [reflexivity|].
    exfalso.
    assert (Hs : jobController.studentById sid (setStudents r st) = Some s)
      by exact H1.
    apply studentById_id in Hs. apply Nat.eqb_neq in Ei. congruence.
  - intros H1 H2. destruct (Nat.eqb (student_id x) sid) eqn:Ei; simpl.
    + injection H1 as ->. rewrite String.eqb_refl in Eo. discriminate.
    + apply IH; assumption.
Qed.

(** Assigning a stored job to a student found by identifier, who is also
    the first student carrying that onyen: the handler redirects to the
    assignment page and adds the job to that student's history (once,
    if the history had no repetition); assigning again changes nothing;
    and the job can then not be deleted, the delete being refused with
    the student message. *)
Theorem assign_links_student (j sid : ObjectId) (s : Student) (st : Store) :
  (exists d, d ∈ jobs st /\ doc_id d = j) ->
  jobController.studentById sid st = Some s ->
  head (List.filter (fun x => String.eqb (onyen x) (onyen s)) (students st))
    = Some s ->
  let request := jobController.assign (Some (VId j)) (Some (jobController.One (VId sid))) in
  let st' := setStudents
               (jobController.updateFirst (onyen s) (jobController.addToSet j)
                                          (students st)) st in
  request st = ([Sent (Redirect ("/job/assign/" ++ idText j))], st') /\
  jobController.studentById sid st' = Some (jobController.addToSet j s) /\
  j ∈ jobHistory (jobController.addToSet j s) /\
  (NoDup (jobHistory s) ->
   count_occ Nat.eq_dec (jobHistory (jobController.addToSet j s)) j = 1%nat) /\
  request st' = ([Sent (Redirect ("/job/assign/" ++ idText j))], st') /\
  jobController.delete (Some (VId j)) st' =
    ([Sent (Render "Could not delete job because a student is referencing it.")], st').
Proof.
  intros Hjob Hs Ho request st'.
  assert (Hfound : forall st0, jobs st0 = jobs st ->
            exists d0, head (List.filter (fun d => Nat.eqb (doc_id d) j) (jobs st0))
                       = Some d0).
  { intros st0 ->. destruct Hjob as [d [Hd Hid]].
    destruct (List.filter _ (jobs st)) as [|d0 l] eqn:E; [|eauto].
    exfalso. apply filter_nil_iff with (x := d) in E; [|exact Hd].
    apply Nat.eqb_neq in E. congruence. }
  assert (Hs' : jobController.studentById sid st' = Some (jobController.addToSet j s)).
  { apply studentById_updateFirst; [|destruct st; exact Hs|exact Ho].
    intros x. unfold jobController.addToSet.
    destruct (existsb _ _); reflexivity. }
  assert (Ho' : head (List.filter (fun x => String.eqb (onyen x) (onyen s))
                                  (students st'))
                = Some (jobController.addToSet j s)).
  { unfold st'. simpl. rewrite head_updateFirst by apply addToSet_onyen.
    rewrite Ho. reflexivity. }
  assert (Hrun : forall st0 s0,
            jobs st0 = jobs st ->
            jobController.studentById sid st0 = Some s0 ->
            onyen s0 = onyen s ->
            head (List.filter (fun x => String.eqb (onyen x) (onyen s))
                              (students st0)) = Some s0 ->
            request st0 =
              ([Sent (Redirect ("/job/assign/" ++ idText j))],
               setStudents
                 (jobController.updateFirst (onyen s) (jobController.addToSet j)
                                            (students st0)) st0)).
  { intros st0 s0 Hj0 Hs0 Hon Ho0. unfold request, jobController.assign.
    destruct (Hfound st0 Hj0) as [d0 ->]. simpl.
    rewrite Hs0. unfold jobController.pushStudentJob. simpl.
    rewrite Hon, Ho0. reflexivity. }
  split; [apply (Hrun st s); auto|].
  split; [exact Hs'|]. split; [apply addToSet_elem|].
  split.
  { intros Hnd. apply count_occ_NoDup_elem;
      [apply addToSet_NoDup; exact Hnd|apply addToSet_elem]. }
  split.
  - rewrite (Hrun st' (jobController.addToSet j s));
      [|reflexivity|exact Hs'|apply addToSet_onyen|exact Ho'].
    unfold st' at 2. simpl.
    rewrite updateFirst_twice;
      [reflexivity|apply addToSet_onyen|apply addToSet_idem].
  - unfold jobController.delete, jobController.studentsWithJob.
    rewrite (length_pos_filter _ _ (jobController.addToSet j s)); [reflexivity| |].
    + unfold st'. simpl. apply updateFirst_elem. exact Ho.
    + apply existsb_nat_elem, addToSet_elem.
Qed.

Lemma assign_links_student_witness :
  jobController.assign (Some (VId 10%nat)) (Some (jobController.One (VId 3%nat)))
                       unassigned
  = ([Sent (Redirect ("/job/assign/" ++ idText 10%nat))],
     setStudents
       (jobController.updateFirst (onyen jdoe) (jobController.addToSet 10%nat)
                                  (students unassigned)) unassigned).
Proof.
  refine (proj1 (assign_links_student 10%nat 3%nat jdoe unassigned _ _ _)).
  - exists ta10. split; [simpl; left|reflexivity].
  - reflexivity.
  - reflexivity.
Defined.

Lemma unAssign_run (sid j : ObjectId) (st : Store) :
  jobController.unAssign (unAssignBody sid j) st =
  ([Sent (Redirect ("/job/assign/" ++ idText j))],
   setStudents
     (jobController.updateStudentById sid (jobController.pull j) (students st)) st).
Proof.
  unfold jobController.unAssign, unAssignBody.
  rewrite lookup_insert_eq.
  rewrite lookup_insert_ne by discriminate. rewrite lookup_insert_eq.
  reflexivity.
Qed.

Lemma pull_absent (j : ObjectId) (s : Student) :
  existsb (Nat.eqb j) (jobHistory (jobController.pull j s)) = false.
Proof.
  destruct (existsb (Nat.eqb j) (jobHistory (jobController.pull j s))) eqn:E;
    [|reflexivity].
  apply existsb_nat_elem, list_elem_of_In in E. simpl in E.
  apply filter_In in E as [_ E]. rewrite Nat.eqb_refl in E. discriminate.
Qed.

Lemma filter_keeps {A} (f : A -> bool) (l : list A) :
  (forall x, x ∈ l -> f x = true) -> List.filter f l = l.
Proof.
  induction l as [|a l IH]; intros H; simpl; [reflexivity|].
  rewrite (H a) by left. rewrite IH; [reflexivity|].
  intros x Hx. apply H. right. exact Hx.
Qed.

Lemma pull_addToSet (j : ObjectId) (s : Student) :
  j ∉ jobHistory s ->
  jobController.pull j (jobController.addToSet j s) = s.
Proof.
  intros Hj. unfold jobController.addToSet.
  destruct (existsb (Nat.eqb j) (jobHistory s)) eqn:E.
  - apply existsb_nat_elem in E. contradiction.
  - unfold jobController.pull. simpl. rewrite List.filter_app. simpl.
    rewrite Nat.eqb_refl. simpl. rewrite app_nil_r.
    rewrite filter_keeps.
    + destruct s; reflexivity.
    + intros x Hx. apply negb_true_iff, Nat.eqb_neq. intros ->. contradiction.
Qed.

Lemma pull_clears (j sid : ObjectId) (ss : list Student) (s : Student) :
  List.filter (fun x => existsb (Nat.eqb j) (jobHistory x)) ss = [s] ->
  head (List.filter (fun x => Nat.eqb (student_id x) sid) ss) = Some s ->
  List.filter (fun x => existsb (Nat.eqb j) (jobHistory x))
              (jobController.updateStudentById sid (jobController.pull j) ss) = [].
Proof.
  induction ss as [|x l IH]; [reflexivity|].
  cbn -[jobController.pull].
  destruct (Nat.eqb (student_id x) sid) eqn:Ei; cbn -[jobController.pull].
  - intros Hone Hs. injection Hs as ->.
    pose proof (pull_absent j s) as Hp. rewrite Hp.
    destruct (existsb (Nat.eqb j) (jobHistory s)) eqn:E0.
    + injection Hone as Hone. exact Hone.
    + exfalso.
      assert (Hin : In s (List.filter
                     (fun x => existsb (Nat.eqb j) (jobHistory x)) l))
        by (rewrite Hone; left; reflexivity).
      apply filter_In in Hin as [_ Hin]. simpl in Hin. congruence.
  - intros Hone Hs.
    destruct (existsb (Nat.eqb j) (jobHistory x)) eqn:Ex.
    + injection Hone as -> _. exfalso.
      assert (Hin : In s (List.filter (fun x => Nat.eqb (student_id x) sid) l)).
      { assert (Hh : forall (k : list Student) y, head k = Some y -> In y k).
        { intros [|a t] y H; [discriminate H|].
          injection H as ->. left. reflexivity. }
        apply Hh. exact Hs. }
      apply filter_In in Hin as [_ Hin]. simpl in Hin. congruence.
    + apply IH; assumption.
Qed.

(** Unassigning the one student who holds a job frees the job: the
    handler redirects to the assignment page, no student references the
    job any more, the jobs themselves are untouched, and the delete of
    that job now goes through. *)
Theorem unAssign_frees_job (j sid : ObjectId) (s : Student) (st : Store) :
  jobController.studentsWithJob j st = [s] ->
  jobController.studentById sid st = Some s ->
  (exists d, d ∈ jobs st /\ doc_id d = j) ->
  let r := jobController.unAssign (unAssignBody sid j) st in
  fst r = [Sent (Redirect ("/job/assign/" ++ idText j))] /\
  jobController.studentsWithJob j (snd r) = [] /\
  jobs (snd r) = jobs st /\
  fst (jobController.delete (Some (VId j)) (snd r)) = [Sent (Redirect "/job")].
Proof.
  intros Hone Hs Hjob r. unfold r. rewrite unAssign_run. simpl fst. simpl snd.
  assert (Hnone : jobController.studentsWithJob j
            (setStudents (jobController.updateStudentById sid (jobController.pull j)
                            (students st)) st) = []).
  { unfold jobController.studentsWithJob. simpl students.
    apply (pull_clears j sid (students st) s); assumption. }
  split; [reflexivity|]. split; [exact Hnone|]. split; [reflexivity|].
  unfold jobController.delete. rewrite Hnone.
  change (0 <? length [])%nat with false. cbv beta iota.
  destruct (removeById_found j (jobs st) Hjob) as (d & l1 & l2 & _ & _ & _ & E).
  simpl jobs. rewrite E. reflexivity.
Qed.

Lemma unAssign_frees_job_witness :
  let r := jobController.unAssign (unAssignBody 3%nat 10%nat) assigned in
  fst r = [Sent (Redirect ("/job/assign/" ++ idText 10%nat))] /\
  jobController.studentsWithJob 10%nat (snd r) = [] /\
  jobs (snd r) = jobs assigned /\
  fst (jobController.delete (Some (VId 10%nat)) (snd r)) = [Sent (Redirect "/job")].
Proof.
  apply (unAssign_frees_job 10%nat 3%nat (mkStudent 3%nat "jdoe" [10%nat] [] [])
           assigned).
  - reflexivity.
  - reflexivity.
  - exists ta10. split; [simpl; left|reflexivity].
Defined.

Lemma pull_undoes_addToSet (j sid : ObjectId) (s : Student)
    (ss : list Student) :
  head (List.filter (fun x => Nat.eqb (student_id x) sid) ss) = Some s ->
  head (List.filter (fun x => String.eqb (onyen x) (onyen s)) ss) = Some s ->
  j ∉ jobHistory s ->
  jobController.updateStudentById sid (jobController.pull j)
    (jobController.updateFirst (onyen s) (jobController.addToSet j) ss) = ss.
Proof.
  intros Hs Ho Hj.
  assert (Hh : forall (k : list Student) y, head k = Some y -> In y k).
  { intros [|a t] y H; [discriminate H|]. injection H as ->. left. reflexivity. }
  assert (Hid : student_id (jobController.addToSet j s) = student_id s).
  { unfold jobController.addToSet. destruct (existsb _ _); reflexivity. }
  assert (Hsid : student_id s = sid).
  { apply Hh, filter_In in Hs as [_ Hs]. apply Nat.eqb_eq. exact Hs. }
  revert Hs Ho. induction ss as [|x l IH]; [reflexivity|].
  cbn -[jobController.pull jobController.addToSet].
  destruct (String.eqb (onyen x) (onyen s)) eqn:Eo;
    cbn -[jobController.pull jobController.addToSet].
  - intros _ Ho. injection Ho as ->.
    rewrite Hid, Hsid, Nat.eqb_refl, pull_addToSet by exact Hj. reflexivity.
  - destruct (Nat.eqb (student_id x) sid) eqn:Ei;
      cbn -[jobController.pull jobController.addToSet].
    + intros Hs _. injection Hs as ->. rewrite String.eqb_refl in Eo. discriminate.
    + intros Hs Ho. rewrite IH by assumption. reflexivity.
Qed.

(** Unassign undoes assign: when the student did not hold the job
    before, assigning it and then unassigning it gives back the store as
    it was. *)
Theorem unAssign_undoes_assign (j sid : ObjectId) (s : Student) (st : Store) :
  (exists d, d ∈ jobs st /\ doc_id d = j) ->
  jobController.studentById sid st = Some s ->
  head (List.filter (fun x => String.eqb (onyen x) (onyen s)) (students st))
    = Some s ->
  j ∉ jobHistory s ->
  snd (jobController.unAssign (unAssignBody sid j)
         (snd (jobController.assign (Some (VId j))
                 (Some (jobController.One (VId sid))) st))) = st.
Proof.
  intros Hjob Hs Ho Hj.
  assert (Hrun : jobController.assign (Some (VId j))
                   (Some (jobController.One (VId sid))) st =
                 ([Sent (Redirect ("/job/assign/" ++ idText j))],
                  setStudents
                    (jobController.updateFirst (onyen s) (jobController.addToSet j)
                                               (students st)) st)).
  { unfold jobController.assign.
    destruct Hjob as [d [Hd Hid]].
    destruct (List.filter (fun d => Nat.eqb (doc_id d) j) (jobs st))
      as [|d0 l] eqn:E.
    - exfalso. apply filter_nil_iff with (x := d) in E; [|exact Hd].
      apply Nat.eqb_neq in E. congruence.
    - simpl. rewrite Hs. unfold jobController.pushStudentJob. simpl.
      rewrite Ho. reflexivity. }
  rewrite Hrun, unAssign_run. simpl.
  rewrite (pull_undoes_addToSet j sid s (students st) Hs Ho Hj).
  destruct st; reflexivity.
Qed.

Lemma unAssign_undoes_assign_witness :
  snd (jobController.unAssign (unAssignBody 3%nat 10%nat)
         (snd (jobController.assign (Some (VId 10%nat))
                 (Some (jobController.One (VId 3%nat))) unassigned))) = unassigned.
Proof.
  apply (unAssign_undoes_assign 10%nat 3%nat jdoe unassigned).
  - exists ta10. split; [simpl; left|reflexivity].
  - reflexivity.
  - reflexivity.
  - simpl. intros H. inversion H.
Defined.

(** ** Updating *)

Lemma updateById_found (id : ObjectId) (upd : Obj) (coll : list Doc) :
  (exists d, d ∈ coll /\ doc_id d = id) ->
  exists d l1 l2,
    coll = (l1 ++ d :: l2)%list /\ doc_id d = id /\
    (forall x, x ∈ l1 -> doc_id x <> id) /\
    Mongoose.updateById id upd coll =
      (Some d, (l1 ++ mkDoc id (upd ∪ fields d) :: l2)%list).
Proof.
  induction coll as [|c r IH]; intros [d [Hd Hid]].
  - inversion Hd.
  - simpl. destruct (Nat.eqb (doc_id c) id) eqn:E.
    + apply Nat.eqb_eq in E. exists c, [], r. simpl.
      rewrite E. repeat split; auto. intros x Hx. inversion Hx.
    + apply Nat.eqb_neq in E.
      apply elem_of_cons in Hd as [->|Hd]; [congruence|].
      destruct IH as (d' & l1 & l2 & -> & Hid' & Hl1 & ->); [eauto|].
      exists d', (c :: l1), l2. simpl. repeat split; auto.
      intros x Hx. apply elem_of_cons in Hx as [->|Hx]; auto.
Qed.

Lemma updateById_absent (id : ObjectId) (upd : Obj) (coll : list Doc) :
  (forall d, d ∈ coll -> doc_id d <> id) ->
  Mongoose.updateById id upd coll = (None, coll).
Proof.
  induction coll as [|c r IH]; intros H; simpl; [reflexivity|].
  destruct (Nat.eqb (doc_id c) id) eqn:E.
  - apply Nat.eqb_eq in E. exfalso. apply (H c); [left|exact E].
  - rewrite IH; [reflexivity|]. intros d Hd. apply H. right. exact Hd.
Qed.

(** A Course update whose request passes the all-fields gate, names a
    stored course by [_id] and has values that can be cast is carried
    out whatever the length of the department: the first course with
    that identifier takes the request's fields and the handler
    redirects to its edit page; when the department is not four
    characters long the four-letter message is rendered first and the
    record is changed all the same.  With no stored course of that
    identifier the answer is CourseNotFound and the store is left
    alone. *)
Theorem course_put_updates (body : Obj) (st : Store) (id : ObjectId) (upd : Obj) :
  let input := util.validateModelData body courseSchema in
  util.allFieldsExist input courseSchema = true ->
  input !! "_id" = Some (VId id) ->
  Mongoose.construct courseSchema input = Some upd ->
  let warned :=
    if lengthNot4 (input !! "department")
    then [Sent (Render "Please input four letter department code")] else [] in
  ((exists d, d ∈ courses st /\ doc_id d = id) ->
   exists d l1 l2,
     courses st = (l1 ++ d :: l2)%list /\ doc_id d = id /\
     (forall x, x ∈ l1 -> doc_id x <> id) /\
     courseController.put body st =
       ((warned ++ [Sent (Redirect ("/course/edit/" ++ idText id))])%list,
        setCourses (l1 ++ mkDoc id (upd ∪ fields d) :: l2)%list st)) /\
  ((forall d, d ∈ courses st -> doc_id d <> id) ->
   courseController.put body st =
     ((warned ++ [Sent (Json "CourseNotFound" "course.put")])%list, st)).
Proof.
  intros input Ha Hid Hc warned. unfold courseController.put.
  fold input. rewrite Ha, Hid, Hc. fold warned. split.
  - intros Hd.
    destruct (updateById_found id upd (courses st) Hd)
      as (d & l1 & l2 & H1 & H2 & H3 & H4).
    exists d, l1, l2. rewrite H4, H2. auto.
  - intros Hno. rewrite (updateById_absent id upd (courses st) Hno). reflexivity.
Qed.

Lemma course_put_updates_witness :
  exists d l1 l2,
    courses catalog = (l1 ++ d :: l2)%list /\ doc_id d = 30%nat /\
    (forall x, x ∈ l1 -> doc_id x <> 30%nat) /\
    courseController.put (<["_id" := VId 30%nat]> (courseBody "MATHS")) catalog =
      ([Sent (Render "Please input four letter department code");
        Sent (Redirect ("/course/edit/" ++ idText 30%nat))],
       setCourses (l1 ++ mkDoc 30%nat
                     (<["department" := VStr "MATHS"]> comp410Fields ∪ fields d) :: l2)%list
                  catalog).
Proof.
  refine (proj1 (course_put_updates (<["_id" := VId 30%nat]> (courseBody "MATHS"))
                   catalog 30%nat (<["department" := VStr "MATHS"]> comp410Fields)
                   _ _ _) _).
  - vm_compute. reflexivity.
  - vm_compute. reflexivity.
  - vm_compute. reflexivity.
  - exists cs410. split; [simpl; left|reflexivity].
Defined.

(** A Job update that carries a position, a supervisor and the [_id] of
    a stored job, with values that can be cast, changes the first job
    with that identifier to the request's fields and redirects to its
    edit page; with no stored job of that identifier the answer is
    JobNotFound and the store is left alone; without a position, a
    supervisor or an [_id] the handler throws and nothing is changed. *)
Theorem job_put_updates (body : Obj) (st : Store) :
  let input := util.validateModelData body jobSchema in
  (forall id upd,
     is_Some (input !! "position") -> is_Some (input !! "supervisor") ->
     input !! "_id" = Some (VId id) ->
     Mongoose.construct jobSchema input = Some upd ->
     ((exists d, d ∈ jobs st /\ doc_id d = id) ->
      exists d l1 l2,
        jobs st = (l1 ++ d :: l2)%list /\ doc_id d = id /\
        (forall x, x ∈ l1 -> doc_id x <> id) /\
        jobController.put body st =
          ([Sent (Redirect ("/job/edit/" ++ idText id))],
           setJobs (l1 ++ mkDoc id (upd ∪ fields d) :: l2)%list st)) /\
     ((forall d, d ∈ jobs st -> doc_id d <> id) ->
      jobController.put body st = ([Sent (Json "JobNotFound" "job.put")], st))) /\
  (input !! "position" = None \/ input !! "supervisor" = None \/
   input !! "_id" = None ->
   jobController.put body st = ([Thrown "RequiredParamNotFound"], st)).
Proof.
  intros input. split.
  - intros id upd [p Hp] [sv Hs] Hid Hc. unfold jobController.put.
    fold input. rewrite Hp, Hs, Hid, Hc. split.
    + intros Hd.
      destruct (updateById_found id upd (jobs st) Hd)
        as (d & l1 & l2 & H1 & H2 & H3 & H4).
      exists d, l1, l2. rewrite H4, H2. auto.
    + intros Hno. rewrite (updateById_absent id upd (jobs st) Hno). reflexivity.
  - intros H. unfold jobController.put. fold input.
    destruct H as [H|[H|H]]; rewrite H.
    + reflexivity.
    + destruct (input !! "position"); reflexivity.
    + destruct (input !! "position"); [|reflexivity].
      destruct (input !! "supervisor"); reflexivity.
Qed.

Lemma job_put_updates_witness :
  (exists d l1 l2,
     jobs unassigned = (l1 ++ d :: l2)%list /\ doc_id d = 10%nat /\
     (forall x, x ∈ l1 -> doc_id x <> 10%nat) /\
     jobController.put (<["_id" := VId 10%nat]> raBody) unassigned =
       ([Sent (Redirect ("/job/edit/" ++ idText 10%nat))],
        setJobs (l1 ++ mkDoc 10%nat (raBody ∪ fields d) :: l2)%list unassigned)) /\
  jobs (snd (jobController.put (<["_id" := VId 10%nat]> raBody) unassigned)) =
    [mkDoc 10%nat raBody] /\
  jobController.put (<["_id" := VId 99%nat]> raBody) unassigned =
    ([Sent (Json "JobNotFound" "job.put")], unassigned) /\
  jobController.put raBody unassigned =
    ([Thrown "RequiredParamNotFound"], unassigned).
Proof.
  split; [|split; [|split]].
  - refine (proj1 (proj1 (job_put_updates (<["_id" := VId 10%nat]> raBody) unassigned)
                     10%nat raBody _ _ _ _) _).
    + exists (VStr "RA"). vm_compute. reflexivity.
    + exists (VId 1%nat). vm_compute. reflexivity.
    + vm_compute. reflexivity.
    + vm_compute. reflexivity.
    + exists ta10. split; [simpl; left|reflexivity].
  - vm_compute. reflexivity.
  - refine (proj2 (proj1 (job_put_updates (<["_id" := VId 99%nat]> raBody) unassigned)
                     99%nat (fields (mkDoc 0%nat raBody)) _ _ _ _) _).
    + exists (VStr "RA"). vm_compute. reflexivity.
    + exists (VId 1%nat). vm_compute. reflexivity.
    + vm_compute. reflexivity.
    + vm_compute. reflexivity.
    + intros d Hd. simpl in Hd. apply list_elem_of_singleton in Hd. subst d.
      simpl. lia.
  - apply (proj2 (job_put_updates raBody unassigned)).
    right. right. vm_compute. reflexivity.
Defined.

(** ** What a delete can remove *)

Lemma removeById_cases (id : ObjectId) (coll : list Doc) :
  (Mongoose.removeById id coll = (None, coll)) \/
  exists d l1 l2, coll = (l1 ++ d :: l2)%list /\ doc_id d = id /\
                  Mongoose.removeById id coll = (Some d, (l1 ++ l2)%list).
Proof.
  induction coll as [|c r IH]; simpl; [left; reflexivity|].
  destruct (Nat.eqb (doc_id c) id) eqn:E.
  - right. apply Nat.eqb_eq in E. exists c, [], r. auto.
  - destruct IH as [->|(d & l1 & l2 & -> & Hid & ->)].
    + left. reflexivity.
    + right. exists d, (c :: l1), l2. auto.
Qed.

(** A Job delete touches nothing but the jobs, and there it removes at
    most the one job asked for, and only when no student's job history
    holds its identifier; it redirects to the job list exactly in that
    case. *)
Theorem job_delete_safe (id : option Value) (st : Store) :
  let r := jobController.delete id st in
  faculties (snd r) = faculties st /\ semesters (snd r) = semesters st /\
  students (snd r) = students st /\ gradeDocs (snd r) = gradeDocs st /\
  courses (snd r) = courses st /\ nextId (snd r) = nextId st /\
  ((jobs (snd r) = jobs st /\ fst r <> [Sent (Redirect "/job")]) \/
   exists d l1 l2,
     id = Some (VId (doc_id d)) /\
     jobs st = (l1 ++ d :: l2)%list /\ jobs (snd r) = (l1 ++ l2)%list /\
     fst r = [Sent (Redirect "/job")] /\
     forall s, s ∈ students st -> doc_id d ∉ jobHistory s).
Proof.
  unfold jobController.delete.
  destruct id as [[x|n|i]|]; simpl;
    try (repeat split; try reflexivity; left; split; [reflexivity|discriminate]).
  destruct (jobController.studentsWithJob i st) as [|s0 l0] eqn:Es; simpl.
  - destruct (removeById_cases i (jobs st)) as [E|(d & l1 & l2 & H1 & H2 & E)];
      rewrite E; simpl.
    + repeat split; try reflexivity. left. split; [reflexivity|discriminate].
    + repeat split; try reflexivity. right. exists d, l1, l2.
      rewrite H2. repeat split; auto.
      intros s Hs Hin. unfold jobController.studentsWithJob in Es.
      apply filter_nil_iff with (x := s) in Es; [|exact Hs].
      apply existsb_nat_elem in Hin. congruence.
  - repeat split; try reflexivity. left. split; [reflexivity|discriminate].
Qed.

(** A Course delete touches nothing but the courses, and there it
    removes at most the one course asked for, and only when no job's
    course field holds its identifier; it redirects to the course list
    exactly in that case.  What the students' [courseHistory] arrays hold
    plays no part. *)
Theorem course_delete_safe (id : option Value) (st : Store) :
  let r := courseController.delete id st in
  faculties (snd r) = faculties st /\ semesters (snd r) = semesters st /\
  students (snd r) = students st /\ gradeDocs (snd r) = gradeDocs st /\
  jobs (snd r) = jobs st /\ nextId (snd r) = nextId st /\
  ((courses (snd r) = courses st /\ fst r <> [Sent (Redirect "/course")]) \/
   exists c l1 l2,
     id = Some (VId (doc_id c)) /\
     courses st = (l1 ++ c :: l2)%list /\ courses (snd r) = (l1 ++ l2)%list /\
     fst r = [Sent (Redirect "/course")] /\
     (forall j, j ∈ jobs st -> fields j !! "course" <> Some (VId (doc_id c)))).
Proof.
  unfold courseController.delete.
  destruct id as [id|]; simpl;
    [|repeat split; try reflexivity; left; split; [reflexivity|discriminate]].
  rewrite studentsWithCourse_nil.
  change (0 <? length [])%nat with false. cbv beta iota.
  rewrite find_jobs_by_course.
  destruct id as [x|n|i]; simpl Mongoose.castValue; cbv beta iota;
    try (simpl; repeat split; try reflexivity; left; split;
         [reflexivity|discriminate]).
  destruct (List.filter _ (jobs st)) as [|j0 r0] eqn:Ej;
    [|simpl; repeat split; try reflexivity; left; split; [reflexivity|discriminate]].
  change (0 <? length [])%nat with false. cbv beta iota.
  destruct (removeById_cases i (courses st)) as [E|(c & l1 & l2 & H1 & H2 & E)];
    rewrite E; simpl.
  - repeat split; try reflexivity. left. split; [reflexivity|discriminate].
  - split; [reflexivity|]. split; [reflexivity|]. split; [reflexivity|].
    split; [reflexivity|]. split; [reflexivity|]. split; [reflexivity|].
    right. exists c, l1, l2. rewrite H2.
    split; [reflexivity|]. split; [exact H1|]. split; [reflexivity|].
    split; [reflexivity|].
    intros j Hj Hf. apply filter_nil_iff with (x := j) in Ej; [|exact Hj].
    apply bool_decide_eq_false in Ej. contradiction.
Qed.

(** The guard of the course delete at work on a store where jdoe's
    [courseHistory] holds course 30: the student message is not sent; a
    job on course 30 blocks the delete with the job message; without such
    a job course 30 is removed. *)
Lemma course_delete_guard_witness :
  fst (courseController.delete (Some (VId 30%nat)) enrolled) <>
    [Sent (Render "Could not delete course because student is referencing it.")]
  /\
  courseController.delete (Some (VId 30%nat))
    (setJobs [mkDoc 40%nat (<["course" := VId 30%nat]> (fields ta10))] enrolled) =
  ([Sent (Render "Could not delete course because job is referencing it.")],
   setJobs [mkDoc 40%nat (<["course" := VId 30%nat]> (fields ta10))] enrolled)
  /\
  (exists c l1 l2,
     courses enrolled = (l1 ++ c :: l2)%list /\ doc_id c = 30%nat /\
     (forall x, x ∈ l1 -> doc_id x <> 30%nat) /\
     courseController.delete (Some (VId 30%nat)) enrolled =
       ([Sent (Redirect "/course")], setCourses (l1 ++ l2)%list enrolled)).
Proof.
  split; [|split].
  - exact (proj1 (course_delete_guard 30%nat enrolled)).
  - apply (proj1 (proj2 (course_delete_guard 30%nat
             (setJobs [mkDoc 40%nat (<["course" := VId 30%nat]> (fields ta10))]
                      enrolled)))).
    eexists. split; [simpl; left|]. vm_compute. reflexivity.
  - apply (proj2 (proj2 (course_delete_guard 30%nat enrolled))).
    + intros j Hj. simpl in Hj. inversion Hj.
    + exists cs410. split; [simpl; left|reflexivity].
Defined.

(** ** Creating the same job twice *)

Lemma coerce_idem (t : SchemaType) (v : Value) :
  util.coerce t (util.coerce t v) = util.coerce t v /\
  (util.isEmpty v = false -> util.isEmpty (util.coerce t v) = false).
Proof.
  destruct t, v as [s|n|i]; simpl; auto.
  destruct (Mongoose.numberOfText s) eqn:E; simpl; rewrite ?E; auto.
Qed.

Lemma validateModelData_idem (input : Obj) (sch : Schema) :
  schemaPath sch "_id" = None ->
  util.validateModelData (util.validateModelData input sch) sch =
  util.validateModelData input sch.
Proof.
  intros Hs. apply map_eq. intros k.
  destruct (String.eqb k "_id") eqn:E.
  - apply String.eqb_eq in E. subst k. rewrite !validateModelData_id by exact Hs.
    reflexivity.
  - apply String.eqb_neq in E.
    rewrite (validateModelData_lookup (util.validateModelData input sch)) by exact E.
    rewrite project_lookup.
    rewrite (validateModelData_lookup input) by exact E.
    rewrite project_lookup.
    destruct (schemaPath sch k) as [p|]; [|reflexivity].
    destruct (input !! k) as [v|]; [|reflexivity].
    destruct (util.isEmpty v) eqn:Ev; [reflexivity|].
    destruct (coerce_idem (ptype p) v) as [H1 H2].
    rewrite (H2 Ev), H1. reflexivity.
Qed.

(** When a Job create request (one without an [_id]) has just been
    accepted, repeating it is refused as a duplicate: the second request
    is answered "This job already exists." and stores nothing. *)
Theorem job_post_twice (body : Obj) (st st' : Store) (url : string) :
  body !! "_id" = None ->
  jobController.post body st = ([Sent (Redirect url)], st') ->
  jobController.post body st' = ([Sent (Render "This job already exists.")], st').
Proof.
  intros Hid H. unfold jobController.post in *.
  set (input := util.validateModelData body jobSchema) in *.
  destruct (input !! "position") as [p|]; [|discriminate].
  destruct (input !! "supervisor") as [sv|]; [|discriminate].
  destruct (Mongoose.findOne jobSchema (jobs st) input) as [[d|]|e];
    try discriminate.
  unfold saveJob in H.
  destruct (Mongoose.prepare jobSchema (util.validateModelData input jobSchema))
    as [o|e] eqn:Hprep; [|discriminate].
  injection H as _ <-. simpl jobs.
  assert (Hag : agrees jobSchema input (mkDoc (nextId st) o)).
  { unfold input in Hprep. rewrite validateModelData_idem in Hprep by reflexivity.
    fold input in Hprep.
    assert (Hn : input !! "_id" = None).
    { unfold input. rewrite validateModelData_id by reflexivity. exact Hid. }
    pose proof (constructed_agrees jobSchema input o (nextId st) eq_refl Hn
                  (prepare_construct _ _ _ Hprep)) as Ha.
    unfold input in Ha at 1. rewrite validateModelData_idem in Ha by reflexivity.
    exact Ha. }
  destruct (findOne_agrees jobSchema (jobs st ++ [mkDoc (nextId st) o])%list input
              (mkDoc (nextId st) o)) as (d' & _ & _ & ->); [|exact Hag|reflexivity].
  apply elem_of_app. right. left.
Qed.

Lemma job_post_twice_witness :
  jobController.post raBody (snd (jobController.post raBody campus)) =
    ([Sent (Render "This job already exists.")],
     snd (jobController.post raBody campus)).
Proof.
  apply (job_post_twice raBody campus _ "/job/edit/10").
  - vm_compute. reflexivity.
  - vm_compute. reflexivity.
Defined.

(** ** A row that is imported *)

Lemma switchCategory_other (element : Obj) (k : string) :
  k <> "category" ->
  courseController.switchCategory element !! k = element !! k.
Proof.
  intros Hk. unfold courseController.switchCategory.
  destruct (element !! "category"); [|reflexivity].
  apply lookup_insert_ne. congruence.
Qed.

(** The course import on a good row: when the row carries every
    declared field, its faculty cell "Last, First" and its semester cell
    "SEASON, YEAR" (split on the comma) name a stored Faculty and
    Semester, then a stored Course that agrees with the resolved row
    makes the import skip it silently, and otherwise, the values being
    valid, exactly one Course is appended whose faculty and semester are
    the identifiers found and whose category is the normalized one. *)
Theorem course_import_row_creates (element : Obj) (st : Store)
    (fac sem : string) (f : Faculty) (s : Semester) :
  util.allFieldsExist element courseSchema = true ->
  element !! "faculty" = Some (VStr fac) ->
  element !! "semester" = Some (VStr sem) ->
  findFaculty (nth 0 (JS.splitComma fac) "") (JS.splitComma fac !! 1%nat) st
    = Some f ->
  findSemester (JS.toUpperCase (nth 0 (JS.splitComma sem) ""))
               (parseYear (JS.splitComma sem)) st = Resolve (Some s) ->
  let row := resolvedCourse element f s in
  ((exists d, d ∈ courses st /\ agrees courseSchema row d) ->
   courseController.uploadRow element st = Sheet.Chain ([], st)) /\
  (forall o,
     castable courseSchema row ->
     (forall d, d ∈ courses st -> ~ agrees courseSchema row d) ->
     Mongoose.prepare courseSchema row = Resolve o ->
     courseController.uploadRow element st =
       Sheet.Chain ([], bumpId (setCourses (courses st ++ [mkDoc (nextId st) o])%list st)) /\
     o !! "faculty" = Some (VId (faculty_id f)) /\
     o !! "semester" = Some (VId (semester_id s)) /\
     o !! "category" =
       (courseController.normalizeCategory <$> element !! "category")
         ≫= Mongoose.castValue SString).
Proof.
  intros Ha Hfac Hsem Hf Hs row.
  assert (E : courseController.uploadRow element st =
              Sheet.Chain
                match Mongoose.findOne courseSchema (courses st) row with
                | Resolve None =>
                    match saveCourse row st with
                    | Resolve (_, st') => ([], st')
                    | Reject _ =>
                        ([Sent (Render (courseController.name row ++
                            " did not save because something is wrong with it."))], st)
                    end
                | Resolve (Some _) => ([], st)
                | Reject e => ([Unhandled e], st)
                end).
  { unfold courseController.uploadRow. rewrite Ha, Hfac, Hsem, Hf, Hs.
    reflexivity. }
  rewrite E. split.
  - intros [d [Hd Hag]].
    destruct (findOne_agrees _ _ _ _ Hd Hag) as (d' & _ & _ & ->). reflexivity.
  - intros o Hc Hno Hprep.
    destruct (castable_castFilter _ _ Hc) as [conds Hconds].
    rewrite (findOne_none _ _ _ conds Hconds Hno).
    unfold saveCourse. rewrite Hprep. split; [reflexivity|].
    pose proof (prepare_construct _ _ _ Hprep) as Hcons.
    rewrite !(construct_lookup _ _ _ _ Hcons). simpl schemaPath. cbv beta iota.
    unfold row, resolvedCourse.
    rewrite !switchCategory_other by discriminate.
    rewrite lookup_insert_ne by discriminate. rewrite !lookup_insert_eq.
    split; [reflexivity|]. split; [reflexivity|].
    unfold courseController.switchCategory.
    rewrite !lookup_insert_ne by discriminate.
    destruct (element !! "category") as [c|] eqn:Ec.
    + rewrite lookup_insert_eq. reflexivity.
    + rewrite !lookup_insert_ne by discriminate. rewrite Ec. reflexivity.
Qed.

Lemma course_import_row_creates_witness :
  exists o,
    courseController.uploadRow (compRow "FA, 2024") campus =
      Sheet.Chain ([], bumpId (setCourses (courses campus ++ [mkDoc (nextId campus) o])%list
                                          campus)) /\
    o !! "faculty" = Some (VId (faculty_id jane)) /\
    o !! "semester" = Some (VId (semester_id fa2024)) /\
    o !! "category" =
      (courseController.normalizeCategory <$> compRow "FA, 2024" !! "category")
        ≫= Mongoose.castValue SString.
Proof.
  exists comp410Fields.
  refine (proj2 (course_import_row_creates (compRow "FA, 2024") campus
                   "Smith, Jane" "FA, 2024" jane fa2024 _ _ _ _ _)
            comp410Fields _ _ _).
  - vm_compute. reflexivity.
  - vm_compute. reflexivity.
  - vm_compute. reflexivity.
  - vm_compute. reflexivity.
  - vm_compute. reflexivity.
  - apply castable_check. vm_compute. reflexivity.
  - intros d Hd. simpl in Hd. inversion Hd.
  - vm_compute. reflexivity.
Defined.

(** A job row that names no stored student still creates its Job: the
    Job is saved first, and only then the student is looked up, so the
    import stores the Job and renders "student was not found". *)
Theorem job_import_unknown_student_keeps_job (element : Obj) (st : Store)
    (p sup sem o : string) (f : Faculty) (s : Semester) (fields' : Obj) :
  element !! "position" = Some (VStr p) ->
  element !! "supervisor" = Some (VStr sup) ->
  element !! "semester" = Some (VStr sem) ->
  element !! "course" = None ->
  element !! "_id" = None ->
  element !! "onyen" = Some (VStr o) ->
  findFaculty (nth 0 (JS.splitComma sup) "") (JS.splitComma sup !! 1%nat) st
    = Some f ->
  findSemester (JS.toUpperCase (nth 0 (JS.splitBlank sem) ""))
               (parseYear (JS.splitBlank sem)) st = Resolve (Some s) ->
  Mongoose.prepare jobSchema (resolvedRow element p f s) = Resolve fields' ->
  agreeing (util.validateModelData (resolvedRow element p f s) jobSchema) st = [] ->
  (forall x, x ∈ students st -> onyen x <> o) ->
  jobController.uploadRow element st =
  Sheet.Chain
    ([Sent (Render ("Student " ++ o ++ " did not save job " ++ JS.toUpperCase p ++
                    " because student was not found."))],
     bumpId (setJobs (jobs st ++ [mkDoc (nextId st) fields'])%list st)).
Proof.
  intros Hp Hsup Hsem Hc Hid Hon Hf Hs Hprep Hag Hno.
  rewrite (uploadRow_resolved element st p sup sem f s Hp Hsup Hsem Hf Hs).
  cbv zeta. rewrite Hc.
  set (row := resolvedRow element p f s) in *.
  assert (Hrid : row !! "_id" = None).
  { unfold row, resolvedRow. rewrite !lookup_insert_ne by discriminate. exact Hid. }
  assert (Hcast : castable jobSchema (util.validateModelData row jobSchema)).
  { apply (constructed_castable jobSchema row fields'); auto.
    apply prepare_construct. exact Hprep. }
  rewrite (findOne_agreesb _ _ _ Hcast).
  fold (agreeing (util.validateModelData row jobSchema) st). rewrite Hag.
  cbn [head]. unfold saveJob. rewrite Hprep. simpl doc_id.
  unfold jobController.pushed, jobController.pushStudentJob.
  assert (Ho : row !! "onyen" = Some (VStr o)).
  { unfold row, resolvedRow. rewrite !lookup_insert_ne by discriminate. exact Hon. }
  assert (Hpos : row !! "position" = Some (VStr (JS.toUpperCase p))).
  { unfold row, resolvedRow. apply lookup_insert_eq. }
  rewrite Ho, Hpos. simpl Mongoose.castValue. cbv beta iota.
  assert (E : List.filter (fun x => String.eqb (onyen x) o)
                (students (bumpId (setJobs (jobs st ++ [mkDoc (nextId st) fields'])%list st)))
              = []).
  { simpl. apply filter_nil_iff. intros x Hx. apply String.eqb_neq.
    apply Hno. exact Hx. }
  rewrite E. reflexivity.
Qed.

Lemma job_import_unknown_student_keeps_job_witness :
  jobController.uploadRow (<["onyen" := VStr "nobody"]> taRow) campus =
  Sheet.Chain
    ([Sent (Render ("Student " ++ "nobody" ++ " did not save job " ++
                    JS.toUpperCase "ta" ++ " because student was not found."))],
     bumpId (setJobs (jobs campus ++ [mkDoc (nextId campus) (fields ta2024)])%list campus)).
Proof.
  apply (job_import_unknown_student_keeps_job (<["onyen" := VStr "nobody"]> taRow)
           campus "ta" "Smith, Jane" "FA 2024" "nobody" jane fa2024 (fields ta2024)).
  - vm_compute. reflexivity.
  - vm_compute. reflexivity.
  - vm_compute. reflexivity.
  - vm_compute. reflexivity.
  - vm_compute. reflexivity.
  - vm_compute. reflexivity.
  - vm_compute. reflexivity.
  - vm_compute. reflexivity.
  - vm_compute. reflexivity.
  - vm_compute. reflexivity.
  - intros x Hx. simpl in Hx. apply list_elem_of_singleton in Hx. subst x.
    discriminate.
Defined.
